(** * DistributedRL/LaunchTrainingJob.ipynb: the job launcher and the
      coordination core it starts

    The notebook builds one Azure Batch job, one trainer task and
    [batch_pool_size - 1] agent tasks, each with a command line obtained
    from a raw template string through [str.format].  The first part of
    this file embeds that code: the fragment of Python's [str.format],
    [str(int)], the [f] presentation of a binary64 float, [uuid.uuid4],
    [range], and the notebook cells themselves.

    The processes the command lines start ([manage.py],
    [distributed_agent.py]) are not part of the sources at hand; the
    parameter server, the replay memory, the epsilon schedule and the
    checkpoint cadence are modelled from the specification's words, each
    in a module whose comment says so. *)

From Stdlib Require Import ZArith List String Ascii Bool Lia Permutation.
From Stdlib Require Import QArith Qminmax Lqa.
From Stdlib Require Import Floats.SpecFloat.
From Stdlib Require Numbers.DecimalString Numbers.HexadecimalString.
From Stdlib Require Numbers.DecimalZ Numbers.HexadecimalN.
Import ListNotations.

Local Open Scope string_scope.
Local Open Scope Z_scope.

(* ================================================================== *)
(** * Python values and the results of fallible operations *)
(* ================================================================== *)

Module Py.

(** The exceptions [str.format] raises on the templates below, and
    [Unsupported] for the conversions of [str.format] that the notebook
    never uses and this embedding leaves out ([repr] of a float, [f] on
    an int, automatic numbering, attribute and item access, conversion
    flags). *)
Inductive error : Type :=
| IndexError
| ValueError
| Unsupported.

Inductive result (A : Type) : Type :=
| Ok (a : A)
| Raise (e : error).
Arguments Ok {A} a.
Arguments Raise {A} e.

Definition bind {A B : Type} (r : result A) (k : A -> result B) : result B :=
  match r with
  | Ok a => k a
  | Raise e => Raise e
  end.

Definition fmap {A B : Type} (f : A -> B) (r : result A) : result B :=
  bind r (fun a => Ok (f a)).

(** The values the notebook formats: [int] (unbounded, so [Z]), [float]
    (binary64, given by sign, mantissa and exponent) and [str]. *)
Inductive value : Type :=
| PyInt (z : Z)
| PyFloat (f : spec_float)
| PyStr (s : string).

(** [str(z)] for an int. *)
Definition str_int (z : Z) : string :=
  DecimalString.NilZero.string_of_int (Z.to_int z).

(** [zfill]: pad a digit string on the left with zeros up to [width]. *)
Fixpoint zeros (n : nat) : string :=
  match n with
  | O => EmptyString
  | S n' => String "0" (zeros n')
  end.

Definition zfill (width : nat) (s : string) : string :=
  zeros (width - String.length s) ++ s.

(** Rounding of the rational [num / den] ([den > 0], [num >= 0]) to the
    nearest integer, ties to even: the rounding of the correctly rounded
    [f] presentation. *)
Definition round_half_even (num den : Z) : Z :=
  let q := num / den in
  let r := num mod den in
  match 2 * r ?= den with
  | Lt => q
  | Gt => q + 1
  | Eq => if Z.even q then q else q + 1
  end.

(** The magnitude [m * 2^e] in millionths, rounded. *)
Definition millionths (m : positive) (e : Z) : Z :=
  if 0 <=? e
  then Z.pos m * 2 ^ e * 1000000
  else round_half_even (Z.pos m * 1000000) (2 ^ (- e)).

Definition fixed6 (n : Z) : string :=
  str_int (n / 1000000) ++ "." ++ zfill 6 (str_int (n mod 1000000)).

Definition sign_str (s : bool) : string := if s then "-" else EmptyString.

(** [format(x, 'f')] for a float: six digits after the point. *)
Definition format_f (x : spec_float) : string :=
  match x with
  | S754_zero s => sign_str s ++ fixed6 0
  | S754_infinity s => sign_str s ++ "inf"
  | S754_nan => "nan"
  | S754_finite s m e => sign_str s ++ fixed6 (millionths m e)
  end.

(** [format(v, spec)] for the two format specifications in use: the
    empty one, which is [str(v)], and [f]. *)
Definition format_value (v : value) (spec : string) : result string :=
  match v with
  | PyStr s =>
      if String.eqb spec EmptyString then Ok s else
      if String.eqb spec "f" then Raise ValueError else Raise Unsupported
  | PyInt z =>
      if String.eqb spec EmptyString then Ok (str_int z) else Raise Unsupported
  | PyFloat x =>
      if String.eqb spec "f" then Ok (format_f x) else Raise Unsupported
  end.

(** ** [str.format]

    A replacement field is [{index}] or [{index:spec}]; [{{] and [}}]
    are the escaped braces.  The scanner below walks the template once,
    in the states of the field grammar. *)
Inductive scan : Type :=
| Text                              (* literal text *)
| Opened                            (* just after a brace that opens *)
| Closed                            (* just after a brace that closes, in text *)
| Index (n : nat)                   (* reading the digits of the index *)
| Spec (n : nat) (spec : string).   (* reading the format specification *)

Definition digit_of (c : ascii) : option nat :=
  let n := nat_of_ascii c in
  if andb (48 <=? n)%nat (n <=? 57)%nat then Some (n - 48)%nat else None.

Definition field (args : list value) (n : nat) (spec : string)
  : result string :=
  match nth_error args n with
  | Some v => format_value v spec
  | None => Raise IndexError
  end.

Definition emit (piece : result string) (rest : result string)
  : result string :=
  bind piece (fun p => fmap (fun r => p ++ r) rest).

Fixpoint format_from (st : scan) (template : string) (args : list value)
  : result string :=
  match template with
  | EmptyString =>
      match st with
      | Text => Ok EmptyString
      | _ => Raise ValueError
      end
  | String c t =>
      match st with
      | Text =>
          if Ascii.eqb c "{" then format_from Opened t args
          else if Ascii.eqb c "}" then format_from Closed t args
          else fmap (String c) (format_from Text t args)
      | Opened =>
          if Ascii.eqb c "{" then fmap (String c) (format_from Text t args)
          else match digit_of c with
               | Some d => format_from (Index d) t args
               | None => Raise Unsupported
               end
      | Closed =>
          if Ascii.eqb c "}" then fmap (String c) (format_from Text t args)
          else Raise ValueError
      | Index n =>
          if Ascii.eqb c "}"
          then emit (field args n EmptyString) (format_from Text t args)
          else if Ascii.eqb c ":" then format_from (Spec n EmptyString) t args
          else match digit_of c with
               | Some d => format_from (Index (10 * n + d)) t args
               | None => Raise Unsupported
               end
      | Spec n spec =>
          if Ascii.eqb c "}"
          then emit (field args n spec) (format_from Text t args)
          else if Ascii.eqb c "{" then Raise Unsupported
          else format_from (Spec n (spec ++ String c EmptyString)) t args
      end
  end.

Definition format (template : string) (args : list value) : result string :=
  format_from Text template args.

(** [range(start, stop, 1)]. *)
Definition range (start stop : Z) : list Z :=
  map (fun k => start + Z.of_nat k) (seq 0 (Z.to_nat (stop - start))).

End Py.

Notation "x <- r ;; k" := (Py.bind r (fun x => k))
  (at level 61, r at next level, right associativity).

(* ================================================================== *)
(** * [uuid.uuid4] and [str] of a UUID (Python's [uuid] module) *)
(* ================================================================== *)

Module Uuid.

(** [int.from_bytes(bs, byteorder='big')]. *)
Definition from_bytes (bs : list Byte.byte) : Z :=
  fold_left (fun acc b => acc * 256 + Z.of_N (Byte.to_N b)) bs 0.

(** [UUID(bytes=bs, version=v)]: the 128-bit integer with the variant
    set to RFC 4122 and the version number written over bits 76..79. *)
Definition UUID (bs : list Byte.byte) (version : Z) : Py.result Z :=
  if negb (Nat.eqb (List.length bs) 16) then Py.Raise Py.ValueError else
  if negb (andb (1 <=? version) (version <=? 5)) then Py.Raise Py.ValueError else
  let int := from_bytes bs in
  let int := Z.land int (Z.lnot (Z.shiftl 0xc000 48)) in
  let int := Z.lor int (Z.shiftl 0x8000 48) in
  let int := Z.land int (Z.lnot (Z.shiftl 0xf000 64)) in
  let int := Z.lor int (Z.shiftl version 76) in
  Py.Ok int.

(** [uuid4()], with the sixteen bytes [os.urandom(16)] returned. *)
Definition uuid4 (urandom : list Byte.byte) : Py.result Z :=
  UUID urandom 4.

(** ['%032x' % int] for a non-negative int. *)
Definition hex32 (int : Z) : string :=
  Py.zfill 32 (HexadecimalString.NilZero.string_of_uint (N.to_hex_uint (Z.to_N int))).

(** [hex[a:b]] for [0 <= a <= b]. *)
Definition slice (a b : nat) (s : string) : string :=
  String.substring a (b - a) s.

(** [str(u)]: the groups of 8, 4, 4, 4 and 12 hexadecimal digits. *)
Definition str (int : Z) : string :=
  let hex := hex32 int in
  slice 0 8 hex ++ "-" ++ slice 8 12 hex ++ "-" ++ slice 12 16 hex ++ "-"
    ++ slice 16 20 hex ++ "-" ++ slice 20 32 hex.

End Uuid.

(* ================================================================== *)
(** * Reading a command line: the [key=value] arguments a node finds *)
(* ================================================================== *)

Module CommandLine.

(** [cmd.split(' ')]. *)
Fixpoint words (cmd : string) : list string :=
  match cmd with
  | EmptyString => [EmptyString]
  | String c rest =>
      if Ascii.eqb c " " then EmptyString :: words rest
      else match words rest with
           | w :: ws => String c w :: ws
           | [] => [String c EmptyString]
           end
  end.

(** A word [key=value], cut at its first equals sign. *)
Fixpoint key_value (w : string) : option (string * string) :=
  match w with
  | EmptyString => None
  | String c rest =>
      if Ascii.eqb c "=" then Some (EmptyString, rest)
      else match key_value rest with
           | Some (k, v) => Some (String c k, v)
           | None => None
           end
  end.

Definition args_of_words (ws : list string) : list (string * string) :=
  flat_map (fun w => match key_value w with
                     | Some kv => [kv]
                     | None => []
                     end) ws.

(** The [key=value] arguments of a command line, left to right. *)
Definition args (cmd : string) : list (string * string) :=
  args_of_words (words cmd).

Definition keys (cmd : string) : list string := map fst (args cmd).

(** The command line carries an argument [key=...]. *)
Definition supplies (cmd key : string) : bool :=
  existsb (String.eqb key) (keys cmd).

(** The command line carries the argument [key=v]. *)
Definition carries (cmd key v : string) : bool :=
  existsb (fun kv => andb (String.eqb key (fst kv)) (String.eqb v (snd kv)))
          (args cmd).

Fixpoint assoc (key : string) (kvs : list (string * string)) : option string :=
  match kvs with
  | [] => None
  | (k, v) :: rest => if String.eqb key k then Some v else assoc key rest
  end.

(** The value of the leftmost argument [key=...]. *)
Definition arg (cmd key : string) : option string := assoc key (args cmd).

Definition no_space (s : string) : bool :=
  forallb (fun c => negb (Ascii.eqb c " ")) (list_ascii_of_string s).

(** The characters of a key: no space and no equals sign. *)
Definition is_key (k : string) : bool :=
  forallb (fun c => andb (negb (Ascii.eqb c " ")) (negb (Ascii.eqb c "=")))
          (list_ascii_of_string k).

End CommandLine.

(* ================================================================== *)
(** * The notebook *)
(* ================================================================== *)

Module Launcher.
Import Py.

(** [notebook_config.json], the keys the notebook reads. *)
Record NOTEBOOK_CONFIG : Type := {
  batch_account_name : string;
  batch_account_key : string;
  batch_account_url : string;
  batch_pool_name : string;
  batch_job_user_name : string;
  batch_pool_size : Z
}.

(** The hyperparameter cell. *)
Record hyperparameters : Type := {
  batch_update_frequency : Z;
  max_epoch_runtime_sec : Z;
  per_iter_epsilon_reduction : spec_float;
  min_epsilon : spec_float;
  batch_size : Z;
  replay_memory_size : Z;
  weights_path : string;
  train_conv_layers : string
}.

(** The values in the notebook as it stands; [0.003] and [0.1] are the
    binary64 numbers nearest to them.  The path is not a raw string, so
    each doubled backslash of the source is one character. *)
Definition notebook_hyperparameters : hyperparameters := {|
  batch_update_frequency := 300;
  max_epoch_runtime_sec := 30;
  per_iter_epsilon_reduction := S754_finite false 6917529027641082 (-61);
  min_epsilon := S754_finite false 7205759403792794 (-56);
  batch_size := 32;
  replay_memory_size := 2000;
  weights_path := "Z:\data\pretrain_model_weights.h5";
  train_conv_layers := "false"
|}.

(** ** [azure.batch.models] *)

Record UserIdentity : Type := { user_name : string }.

Record MultiInstanceSettings : Type := {
  number_of_instances : Z;
  coordination_command_line : string
}.

Record TaskAddParameter : Type := {
  id : string;
  command_line : string;
  display_name : string;
  user_identity : UserIdentity;
  multi_instance_settings : MultiInstanceSettings
}.

Record PoolInformation : Type := { pool_id : string }.

Record JobAddParameter : Type := {
  job_param_id : string;
  pool_info : PoolInformation
}.

(** ** The Batch service client

    The client is built from the account's credentials; what the
    notebook does to the service is the sequence of requests it sends. *)
Record BatchServiceClient : Type := {
  account_name : string;
  account_key : string;
  base_url : string
}.

Inductive request : Type :=
| job_add (job : JobAddParameter)
| task_add_collection (job_id : string) (tasks : list TaskAddParameter).

(** A cell runs against the requests sent so far and either returns or
    raises; the requests already sent stay sent. *)
Definition cell (A : Type) : Type := list request -> result A * list request.

Definition ret {A : Type} (a : A) : cell A := fun sent => (Ok a, sent).

Definition lift {A : Type} (r : result A) : cell A := fun sent => (r, sent).

Definition send (r : request) : cell unit := fun sent => (Ok tt, (sent ++ [r])%list).

Definition then_ {A B : Type} (c : cell A) (k : A -> cell B) : cell B :=
  fun sent =>
    match c sent with
    | (Ok a, sent') => k a sent'
    | (Raise e, sent') => (Raise e, sent')
    end.

Notation "x <~ c ;; k" := (then_ c (fun x => k))
  (at level 61, c at next level, right associativity).

(** [for x in xs: acc = body(acc, x)]. *)
Fixpoint for_each {A B : Type} (xs : list A) (body : B -> A -> result B)
  (acc : B) : result B :=
  match xs with
  | [] => Ok acc
  | x :: rest => acc' <- body acc x ;; for_each rest body acc'
  end.

(** ** The cells *)

Definition job_id_template : string := "distributed_rl_{0}".

(** The raw string of the trainer task, as it stands in the source. *)
Definition trainer_template : string :=
  "call C:\\prereq\\mount.bat && C:\\ProgramData\\Anaconda3\\Scripts\\activate.bat py36 && python -u Z:\\scripts_downpour\\manage.py runserver 0.0.0.0:80 data_dir=Z:\\\\ role=trainer experiment_name={0} batch_update_frequency={1} weights_path={2} train_conv_layers={3}".

(** The raw string of [agent_cmd_line]. *)
Definition agent_template : string :=
  "call C:\\prereq\\mount.bat && C:\\ProgramData\\Anaconda3\\Scripts\\activate.bat py36 && python -u Z:\\scripts_downpour\\app\\distributed_agent.py data_dir=Z: role=agent max_epoch_runtime_sec={0} per_iter_epsilon_reduction={1:f} min_epsilon={2:f} batch_size={3} replay_memory_size={4} experiment_name={5} weights_path={6} train_conv_layers={7}".

Definition instance_settings : MultiInstanceSettings :=
  {| number_of_instances := 1; coordination_command_line := "cls" |}.

(** [job_id = 'distributed_rl_{0}'.format(str(uuid.uuid4()))]. *)
Definition make_job_id (urandom : list Byte.byte) : result string :=
  u <- Uuid.uuid4 urandom ;;
  format job_id_template [PyStr (Uuid.str u)].

Definition trainer_command_line (hp : hyperparameters) (job_id : string)
  : result string :=
  format trainer_template
    [PyStr job_id; PyInt (batch_update_frequency hp);
     PyStr (weights_path hp); PyStr (train_conv_layers hp)].

Definition trainer_task (cfg : NOTEBOOK_CONFIG) (hp : hyperparameters)
  (job_id : string) : result TaskAddParameter :=
  cmd <- trainer_command_line hp job_id ;;
  Ok {| id := "TrainerTask";
        command_line := cmd;
        display_name := "Trainer";
        user_identity := {| user_name := batch_job_user_name cfg |};
        multi_instance_settings := instance_settings |}.

Definition agent_cmd_line (hp : hyperparameters) (job_id : string)
  : result string :=
  format agent_template
    [PyInt (max_epoch_runtime_sec hp);
     PyFloat (per_iter_epsilon_reduction hp); PyFloat (min_epsilon hp);
     PyInt (batch_size hp); PyInt (replay_memory_size hp);
     PyStr job_id; PyStr (weights_path hp); PyStr (train_conv_layers hp)].

Definition agent_task (cfg : NOTEBOOK_CONFIG) (cmd : string) (i : Z)
  : result TaskAddParameter :=
  task_id <- format "AgentTask_{0}" [PyInt i] ;;
  name <- format "Agent_{0}" [PyInt i] ;;
  Ok {| id := task_id;
        command_line := cmd;
        display_name := name;
        user_identity := {| user_name := batch_job_user_name cfg |};
        multi_instance_settings := instance_settings |}.

(** The task cell up to the request: [tasks = []], the trainer task
    appended, then one agent task appended per [i] of the range. *)
Definition build_tasks (cfg : NOTEBOOK_CONFIG) (hp : hyperparameters)
  (job_id : string) : result (list TaskAddParameter) :=
  let tasks := [] in
  trainer <- trainer_task cfg hp job_id ;;
  let tasks := (tasks ++ [trainer])%list in
  cmd <- agent_cmd_line hp job_id ;;
  for_each (range 0 (batch_pool_size cfg - 1))
    (fun tasks i => t <- agent_task cfg cmd i ;; Ok (tasks ++ [t])%list)
    tasks.

(** The notebook, its cells in order.  [urandom] is what [os.urandom]
    hands to [uuid4]; the result is the job identifier. *)
Definition launch (cfg : NOTEBOOK_CONFIG) (hp : hyperparameters)
  (urandom : list Byte.byte) : cell string :=
  job_id <~ lift (make_job_id urandom) ;;
  let job := {| job_param_id := job_id;
                pool_info := {| pool_id := batch_pool_name cfg |} |} in
  _ <~ send (job_add job) ;;
  tasks <~ lift (build_tasks cfg hp job_id) ;;
  _ <~ send (task_add_collection job_id tasks) ;;
  ret job_id.

Definition batch_client (cfg : NOTEBOOK_CONFIG) : BatchServiceClient :=
  {| account_name := batch_account_name cfg;
     account_key := batch_account_key cfg;
     base_url := batch_account_url cfg |}.

(** ** What a run leaves behind *)

(** The tasks of the requests sent for job [job_id]. *)
Definition roster (job_id : string) (sent : list request)
  : list TaskAddParameter :=
  flat_map (fun r => match r with
                     | task_add_collection j ts =>
                         if String.eqb j job_id then ts else []
                     | job_add _ => []
                     end) sent.

(** The role a task's command line announces to the node. *)
Definition role (t : TaskAddParameter) : option string :=
  CommandLine.arg (command_line t) "role".

Definition has_role (r : string) (t : TaskAddParameter) : bool :=
  match role t with
  | Some r' => String.eqb r r'
  | None => false
  end.

Definition count_role (r : string) (ts : list TaskAddParameter) : nat :=
  List.length (filter (has_role r) ts).

End Launcher.

(* ================================================================== *)
(** * The coordination core the command lines start *)
(* ================================================================== *)

(** Modelled from the spec: the Parameter Server Core and the Checkpoint
    Manager's [persist], which live in the trainer process
    ([scripts_downpour/manage.py]) and are not among the sources.  A
    [push] applies the gradient to the current snapshot, increments
    [version] and [updateCount], and then, when [updatesSinceCheckpoint]
    has reached [checkpointFrequency], hands the post-update snapshot to
    [persist]; the counter goes back to 0 when the durable write
    succeeds and is left as it is when the write fails
    ([CheckpointIOError]).  Pushes are serialized, so a run is a list of
    pushes, each with the outcome its write has if [persist] is
    invoked; [createdAt] is left out. *)
Module ParameterServer.
Section Core.

(** The opaque blobs and the way a gradient is merged into weights. *)
Variable blob : Type.
Variable apply_gradient : blob -> blob -> blob.

Record ModelSnapshot : Type := {
  version : Z;
  weights : blob
}.

Record GradientUpdate : Type := {
  baseVersion : Z;
  gradientBlob : blob;
  agentId : string;
  sampleCount : Z
}.

Record TrainerCounters : Type := {
  updateCount : Z;
  updatesSinceCheckpoint : Z;
  checkpointDir : string
}.

(** One invocation of the Checkpoint Manager. *)
Record persist_call : Type := {
  persisted_snapshot : ModelSnapshot;
  persisted_jobId : string;
  persisted_checkpointDir : string
}.

Record server : Type := {
  snapshot : ModelSnapshot;
  counters : TrainerCounters;
  jobId : string;
  checkpointFrequency : Z
}.

Definition pull (s : server) : Z * blob :=
  (version (snapshot s), weights (snapshot s)).

(** Modelled from the spec: [push] of the Parameter Server Core (the
    trainer process is not among the sources).  It yields the server
    afterwards, the version it reports, and the invocations of
    [persist] it made.  [written] is the outcome of the durable write,
    should this push invoke [persist]: the counter is reset after a
    write that succeeded and not after one that failed.  The trigger is
    the equality test of the contract, so a counter that a failed write
    left at the frequency moves past it with the next push. *)
Definition push (s : server) (g : GradientUpdate) (written : bool)
  : server * Z * list persist_call :=
  let snap := {| version := version (snapshot s) + 1;
                 weights := apply_gradient (weights (snapshot s))
                                           (gradientBlob g) |} in
  let c := counters s in
  let since := updatesSinceCheckpoint c + 1 in
  if since =? checkpointFrequency s
  then ({| snapshot := snap;
           counters := {| updateCount := updateCount c + 1;
                          updatesSinceCheckpoint :=
                            if written then 0 else since;
                          checkpointDir := checkpointDir c |};
           jobId := jobId s;
           checkpointFrequency := checkpointFrequency s |},
        version snap,
        [{| persisted_snapshot := snap;
            persisted_jobId := jobId s;
            persisted_checkpointDir := checkpointDir c |}])
  else ({| snapshot := snap;
           counters := {| updateCount := updateCount c + 1;
                          updatesSinceCheckpoint := since;
                          checkpointDir := checkpointDir c |};
           jobId := jobId s;
           checkpointFrequency := checkpointFrequency s |},
        version snap,
        []).

(** What one applied push leaves to observe. *)
Record applied : Type := {
  after : server;
  reported : Z;
  persists : list persist_call
}.

(** A sequence of pushes, in the order the server receives them, each
    with the outcome of its durable write. *)
Fixpoint run (s : server) (gs : list (GradientUpdate * bool))
  : list applied :=
  match gs with
  | [] => []
  | (g, written) :: rest =>
      let '(s', v, ps) := push s g written in
      {| after := s'; reported := v; persists := ps |} :: run s' rest
  end.

(** The snapshots the server has held: the first one and the one
    after each push. *)
Definition snapshots (s : server) (gs : list (GradientUpdate * bool))
  : list ModelSnapshot :=
  snapshot s :: map (fun a => snapshot (after a)) (run s gs).

(** The updates counted since the last checkpoint. *)
Definition since (s : server) : Z := updatesSinceCheckpoint (counters s).

(** A server that has not counted any update since its last
    checkpoint. *)
Definition fresh (s : server) : Prop :=
  updatesSinceCheckpoint (counters s) = 0.

End Core.

Arguments version {blob} _.
Arguments weights {blob} _.
Arguments baseVersion {blob} _.
Arguments gradientBlob {blob} _.
Arguments agentId {blob} _.
Arguments sampleCount {blob} _.
Arguments persisted_snapshot {blob} _.
Arguments persisted_jobId {blob} _.
Arguments persisted_checkpointDir {blob} _.
Arguments snapshot {blob} _.
Arguments counters {blob} _.
Arguments jobId {blob} _.
Arguments checkpointFrequency {blob} _.
Arguments pull {blob} s.
Arguments push {blob} apply_gradient s g written.
Arguments after {blob} _.
Arguments reported {blob} _.
Arguments persists {blob} _.
Arguments run {blob} apply_gradient s gs.
Arguments snapshots {blob} apply_gradient s gs.
Arguments since {blob} s.
Arguments fresh {blob} s.

End ParameterServer.

(** Modelled from the spec: the Replay Memory of an agent worker
  ([scripts_downpour/app/distributed_agent.py], not among the
  sources).  The transitions are kept oldest first; [push] appends
  and, when the size already equals the capacity, evicts the oldest
  one first.  [sample] draws positions from the numbers [rnd] its
  random source yields and hands the memory back with the outcome. *)
Module ReplayMemory.
Section Memory.

Variable transition : Type.

Record memory : Type := {
  capacity : nat;
  contents : list transition
}.

Definition size (m : memory) : nat := List.length (contents m).

Definition empty (c : nat) : memory := {| capacity := c; contents := [] |}.

(** Modelled from the spec: [push] of the Replay Memory (the agent
    process is not among the sources): append, after evicting the
    oldest transition when the size already equals the capacity. *)
Definition push (m : memory) (t : transition) : memory :=
  if Nat.eqb (size m) (capacity m)
  then {| capacity := capacity m; contents := (tl (contents m) ++ [t])%list |}
  else {| capacity := capacity m; contents := (contents m ++ [t])%list |}.

Definition push_all (m : memory) (ts : list transition) : memory :=
  fold_left push ts m.

Inductive error : Type := InsufficientDataError.

(** The pool without its element at position [i]. *)
Definition without (i : nat) (pool : list transition) : list transition :=
  (firstn i pool ++ skipn (S i) pool)%list.

(** [n] draws: each takes one element out of the pool that is left. *)
Fixpoint draw (rnd : list nat) (n : nat) (pool : list transition)
  : list transition :=
  match n with
  | O => []
  | S n' =>
      let i := (hd O rnd mod List.length pool)%nat in
      match nth_error pool i with
      | Some t => t :: draw (tl rnd) n' (without i pool)
      | None => []
      end
  end.

(** The last [n] elements of a list. *)
Definition lastn (n : nat) (l : list transition) : list transition :=
  skipn (List.length l - n) l.

(** Modelled from the spec: [sample] of the Replay Memory (the agent
    process is not among the sources): [InsufficientDataError] below
    [n] transitions, else [n] draws without replacement. *)
Definition sample (rnd : list nat) (n : nat) (m : memory)
  : (error + list transition) * memory :=
  if Nat.ltb (size m) n
  then (inl InsufficientDataError, m)
  else (inr (draw rnd n (contents m)), m).

End Memory.

Arguments capacity {transition} _.
Arguments contents {transition} _.
Arguments size {transition} m.
Arguments empty {transition} c.
Arguments push {transition} m t.
Arguments push_all {transition} m ts.
Arguments lastn {transition} n l.
Arguments without {transition} i pool.
Arguments draw {transition} rnd n pool.
Arguments sample {transition} rnd n m.

End ReplayMemory.

(** Modelled from the spec: the epsilon schedule of an agent worker
  ([distributed_agent.py], not among the sources): each iteration
  decrements [epsilon] by [perIterEpsilonReduction], floored at
  [minEpsilon].  The numbers are exact rationals; the rounding of a
  floating-point implementation is outside this model. *)
Module Epsilon.

Record schedule : Type := {
  initialEpsilon : Q;
  minEpsilon : Q;
  perIterEpsilonReduction : Q
}.

(** Modelled from the spec: the epsilon step of an agent iteration (the
    agent process is not among the sources): decrement by
    [perIterEpsilonReduction], floored at [minEpsilon]. *)
Definition iteration (c : schedule) (epsilon : Q) : Q :=
  Qmax (minEpsilon c) (epsilon - perIterEpsilonReduction c).

(** [epsilon] after [i] iterations. *)
Fixpoint epsilon_after (c : schedule) (i : nat) : Q :=
  match i with
  | O => initialEpsilon c
  | S i' => iteration c (epsilon_after c i')
  end.

(** The closed form of the specification. *)
Definition closed_form (c : schedule) (i : nat) : Q :=
  Qmax (minEpsilon c)
       (initialEpsilon c - inject_Z (Z.of_nat i) * perIterEpsilonReduction c).

End Epsilon.

(* ================================================================== *)
(** * What a run of the notebook produces, written out *)
(* ================================================================== *)

(** The strings and tasks below are the closed forms of what the cells
    compute; [LauncherFacts] proves each equal to the result of the
    cell it stands for. *)

Module Launched.
Import Py Launcher.

(** The integer of the UUID built from sixteen random bytes. *)
Definition uuid_int (urandom : list Byte.byte) : Z :=
  Z.lor
    (Z.land
       (Z.lor
          (Z.land (Uuid.from_bytes urandom) (Z.lnot (Z.shiftl 0xc000 48)))
          (Z.shiftl 0x8000 48))
       (Z.lnot (Z.shiftl 0xf000 64)))
    (Z.shiftl 4 76).

Definition job_id_of (urandom : list Byte.byte) : string :=
  "distributed_rl_" ++ Uuid.str (uuid_int urandom).

Definition trainer_head : string :=
  "call C:\\prereq\\mount.bat && C:\\ProgramData\\Anaconda3\\Scripts\\activate.bat py36 && python -u Z:\\scripts_downpour\\manage.py runserver 0.0.0.0:80 data_dir=Z:\\\\ role=trainer".

Definition agent_head : string :=
  "call C:\\prereq\\mount.bat && C:\\ProgramData\\Anaconda3\\Scripts\\activate.bat py36 && python -u Z:\\scripts_downpour\\app\\distributed_agent.py data_dir=Z: role=agent".

(** The trainer's command line, word group by word group. *)
Definition trainer_line (hp : hyperparameters) (job_id : string) : string :=
  String.concat " "
    [trainer_head;
     "experiment_name=" ++ job_id;
     "batch_update_frequency=" ++ str_int (batch_update_frequency hp);
     "weights_path=" ++ weights_path hp;
     "train_conv_layers=" ++ train_conv_layers hp].

(** The agents' command line. *)
Definition agent_line (hp : hyperparameters) (job_id : string) : string :=
  String.concat " "
    [agent_head;
     "max_epoch_runtime_sec=" ++ str_int (max_epoch_runtime_sec hp);
     "per_iter_epsilon_reduction=" ++ format_f (per_iter_epsilon_reduction hp);
     "min_epsilon=" ++ format_f (min_epsilon hp);
     "batch_size=" ++ str_int (batch_size hp);
     "replay_memory_size=" ++ str_int (replay_memory_size hp);
     "experiment_name=" ++ job_id;
     "weights_path=" ++ weights_path hp;
     "train_conv_layers=" ++ train_conv_layers hp].

Definition trainer (cfg : NOTEBOOK_CONFIG) (hp : hyperparameters)
  (job_id : string) : TaskAddParameter :=
  {| id := "TrainerTask";
     command_line := trainer_line hp job_id;
     display_name := "Trainer";
     user_identity := {| user_name := batch_job_user_name cfg |};
     multi_instance_settings := instance_settings |}.

Definition agent (cfg : NOTEBOOK_CONFIG) (hp : hyperparameters)
  (job_id : string) (i : Z) : TaskAddParameter :=
  {| id := "AgentTask_" ++ str_int i;
     command_line := agent_line hp job_id;
     display_name := "Agent_" ++ str_int i;
     user_identity := {| user_name := batch_job_user_name cfg |};
     multi_instance_settings := instance_settings |}.

Definition agents (cfg : NOTEBOOK_CONFIG) (hp : hyperparameters)
  (job_id : string) : list TaskAddParameter :=
  map (agent cfg hp job_id) (range 0 (batch_pool_size cfg - 1)).

Definition tasks (cfg : NOTEBOOK_CONFIG) (hp : hyperparameters)
  (job_id : string) : list TaskAddParameter :=
  trainer cfg hp job_id :: agents cfg hp job_id.

Definition job (cfg : NOTEBOOK_CONFIG) (job_id : string) : JobAddParameter :=
  {| job_param_id := job_id;
     pool_info := {| pool_id := batch_pool_name cfg |} |}.

End Launched.

(* ================================================================== *)
(** * The configuration values of the launcher interface *)
(* ================================================================== *)

Module Settings.

(** The recognized configuration values, by the names of the interface. *)
Inductive setting : Type :=
| role | jobId | experimentName | batchUpdateFrequency
| maxEpochRuntimeSec | perIterEpsilonReduction | minEpsilon | batchSize
| replayMemorySize | weightsPath | trainConvLayers | dataDir.

Definition recognized : list setting :=
  [role; jobId; experimentName; batchUpdateFrequency; maxEpochRuntimeSec;
   perIterEpsilonReduction; minEpsilon; batchSize; replayMemorySize;
   weightsPath; trainConvLayers; dataDir].

(** The key under which a command line spells a value.  The job
    identifier has no key of its own: it travels as the experiment
    name. *)
Definition key (s : setting) : string :=
  match s with
  | role => "role"
  | jobId => "experiment_name"
  | experimentName => "experiment_name"
  | batchUpdateFrequency => "batch_update_frequency"
  | maxEpochRuntimeSec => "max_epoch_runtime_sec"
  | perIterEpsilonReduction => "per_iter_epsilon_reduction"
  | minEpsilon => "min_epsilon"
  | batchSize => "batch_size"
  | replayMemorySize => "replay_memory_size"
  | weightsPath => "weights_path"
  | trainConvLayers => "train_conv_layers"
  | dataDir => "data_dir"
  end.

(** The values the trainer's template names, and the agents'. *)
Definition for_trainer : list setting :=
  [dataDir; role; experimentName; batchUpdateFrequency; weightsPath;
   trainConvLayers].

Definition for_agent : list setting :=
  [dataDir; role; maxEpochRuntimeSec; perIterEpsilonReduction; minEpsilon;
   batchSize; replayMemorySize; experimentName; weightsPath;
   trainConvLayers].

(** The values meant for the node a task starts, by the role its
    command line announces. *)
Definition for_role (r : option string) : list setting :=
  match r with
  | Some r' =>
      if String.eqb r' "trainer" then for_trainer
      else if String.eqb r' "agent" then for_agent
      else recognized
  | None => recognized
  end.

Definition supplied_for_role (t : Launcher.TaskAddParameter) : bool :=
  forallb (fun s => CommandLine.supplies (Launcher.command_line t) (key s))
          (for_role (Launcher.role t)).

(** The keys on the command line are those of the role, no other. *)
Definition exactly_for_role (t : Launcher.TaskAddParameter) : Prop :=
  CommandLine.keys (Launcher.command_line t)
  = map key (for_role (Launcher.role t)).

(** Every recognized value is supplied to the node task [t] starts. *)
Definition all_supplied (t : Launcher.TaskAddParameter) : bool :=
  forallb (fun s => CommandLine.supplies (Launcher.command_line t) (key s))
          recognized.

End Settings.

(** A configuration and sixteen bytes to run the notebook on. *)
Module Sample.

Definition cfg (pool_size : Z) : Launcher.NOTEBOOK_CONFIG :=
  {| Launcher.batch_account_name := "account";
     Launcher.batch_account_key := "key";
     Launcher.batch_account_url := "https://account.westus.batch.azure.com";
     Launcher.batch_pool_name := "pool";
     Launcher.batch_job_user_name := "user";
     Launcher.batch_pool_size := pool_size |}.

Definition urandom : list Byte.byte :=
  [Byte.x12; Byte.x34; Byte.x56; Byte.x78; Byte.x9a; Byte.xbc; Byte.xde;
   Byte.xf0; Byte.x0f; Byte.x1e; Byte.x2d; Byte.x3c; Byte.x4b; Byte.x5a;
   Byte.x69; Byte.x78].

End Sample.

(* ================================================================== *)
(** * Reading values back, and the identifiers sent to the service *)
(* ================================================================== *)

Module Decode.

(** The integer a plain decimal text denotes. *)
Definition int_value (s : string) : option Z :=
  option_map Z.of_int (DecimalString.NilZero.int_of_string s).

(** Every character of a text passes a test. *)
Definition all_chars (P : ascii -> bool) (s : string) : bool :=
  forallb P (list_ascii_of_string s).

(** The first word of a value: what is left of it in the word it
    starts on a command line. *)
Definition first_word (v : string) : string :=
  hd EmptyString (CommandLine.words v).

(** The decimal digits of a non-negative int, as [str] prints them. *)
Definition digits_of (r : Z) : Decimal.uint :=
  match r with
  | Z.pos p => Pos.to_uint p
  | _ => Decimal.zero
  end.

(** A text cut at its first point. *)
Fixpoint at_point (s : string) : option (string * string) :=
  match s with
  | EmptyString => None
  | String c rest =>
      if Ascii.eqb c "." then Some (EmptyString, rest)
      else match at_point rest with
           | Some (a, b) => Some (String c a, b)
           | None => None
           end
  end.

(** The number of millionths an unsigned text [ddd.dddddd] denotes. *)
Definition fixed6_value (s : string) : option Z :=
  match at_point s with
  | Some (whole, frac) =>
      if Nat.eqb (String.length frac) 6
      then match int_value whole, int_value frac with
           | Some w, Some f => Some (w * 1000000 + f)
           | _, _ => None
           end
      else None
  | None => None
  end.

(** The integer a text of lowercase hexadecimal digits denotes. *)
Definition hex_value (s : string) : option Z :=
  option_map (fun d => Z.of_N (Pos.of_hex_uint d))
             (HexadecimalString.NilEmpty.uint_of_string s).

Fixpoint without_hyphens (s : string) : string :=
  match s with
  | EmptyString => EmptyString
  | String c rest =>
      if Ascii.eqb c "-" then without_hyphens rest
      else String c (without_hyphens rest)
  end.

(** The integer of the UUID a job identifier names: the 36 characters
    behind [distributed_rl_], hyphens dropped, read as hexadecimal. *)
Definition job_uuid (job_id : string) : option Z :=
  if String.eqb (String.substring 0 15 job_id) "distributed_rl_"
  then hex_value (without_hyphens (String.substring 15 36 job_id))
  else None.

End Decode.

Module BatchId.

(** Letters, digits, hyphen and underscore. *)
Definition id_char (c : ascii) : bool :=
  let n := nat_of_ascii c in
  orb (andb (48 <=? n)%nat (n <=? 57)%nat)
   (orb (andb (65 <=? n)%nat (n <=? 90)%nat)
    (orb (andb (97 <=? n)%nat (n <=? 122)%nat)
     (orb (Ascii.eqb c "-") (Ascii.eqb c "_")))).

Definition valid (s : string) : bool := Decode.all_chars id_char s.

(** The instances the tasks of a roster ask for, all together. *)
Definition instances (ts : list Launcher.TaskAddParameter) : Z :=
  fold_right Z.add 0
    (map (fun t => Launcher.number_of_instances
                     (Launcher.multi_instance_settings t)) ts).

End BatchId.

(* ================================================================== *)
(** * Words and arguments of a command line *)
(* ================================================================== *)

Section CommandLineFacts.
Import CommandLine.

Lemma append_empty_r (s : string) : s ++ EmptyString = s.
Proof. induction s as [|c s IH]; simpl; [reflexivity | now rewrite IH]. Qed.

Lemma words_not_nil (s : string) : words s <> [].
Proof.
  destruct s as [|c s]; simpl; [discriminate|].
  destruct (Ascii.eqb c " "); [discriminate|].
  destruct (words s); discriminate.
Qed.

Lemma words_hd_tl (s : string) : words s = hd EmptyString (words s) :: tl (words s).
Proof.
  destruct (words s) eqn:E; [|reflexivity].
  now apply words_not_nil in E.
Qed.

(** A space between two strings separates their words. *)
Lemma words_app_space (a b : string) :
  words (a ++ String " " b) = (words a ++ words b)%list.
Proof.
  induction a as [|c a IH]; simpl.
  - reflexivity.
  - destruct (Ascii.eqb c " "); rewrite IH; [reflexivity|].
    rewrite (words_hd_tl a). reflexivity.
Qed.

Lemma words_concat (x : string) (xs : list string) :
  words (String.concat " " (x :: xs)) = flat_map words (x :: xs).
Proof.
  revert x. induction xs as [|y ys IH]; intros x.
  - simpl. now rewrite app_nil_r.
  - change (String.concat " " (x :: y :: ys))
      with (x ++ String " " (String.concat " " (y :: ys))).
    rewrite words_app_space, IH. reflexivity.
Qed.

Lemma args_of_words_app (u v : list string) :
  args_of_words (u ++ v) = (args_of_words u ++ args_of_words v)%list.
Proof. unfold args_of_words. apply flat_map_app. Qed.

(** The arguments of word groups joined by spaces are the arguments of
    the groups, in order. *)
Lemma args_concat (x : string) (xs : list string) :
  args (String.concat " " (x :: xs)) = flat_map args (x :: xs).
Proof.
  unfold args. rewrite words_concat.
  generalize (x :: xs) as l. induction l as [|a l IH]; simpl.
  - reflexivity.
  - now rewrite args_of_words_app, IH.
Qed.

Lemma no_space_cons (c : ascii) (s : string) :
  no_space (String c s) = andb (negb (Ascii.eqb c " ")) (no_space s).
Proof. reflexivity. Qed.

Lemma no_space_app (a b : string) :
  no_space (a ++ b) = andb (no_space a) (no_space b).
Proof.
  induction a as [|c a IH]; simpl; [reflexivity|].
  rewrite !no_space_cons, IH. now rewrite andb_assoc.
Qed.

Lemma words_no_space (s : string) : no_space s = true -> words s = [s].
Proof.
  induction s as [|c s IH]; intros H; simpl; [reflexivity|].
  rewrite no_space_cons in H. apply andb_true_iff in H as [Hc Hs].
  apply negb_true_iff in Hc. rewrite Hc, (IH Hs). reflexivity.
Qed.

(** A prefix without spaces stays glued to the first word of what
    follows it. *)
Lemma words_prefix (k s : string) :
  no_space k = true ->
  words (k ++ s) = (k ++ hd EmptyString (words s)) :: tl (words s).
Proof.
  induction k as [|c k IH]; intros H; simpl.
  - apply words_hd_tl.
  - rewrite no_space_cons in H. apply andb_true_iff in H as [Hc Hk].
    apply negb_true_iff in Hc. rewrite Hc, (IH Hk). reflexivity.
Qed.

Lemma is_key_no_space (k : string) : is_key k = true -> no_space k = true.
Proof.
  unfold is_key, no_space. rewrite !forallb_forall. intros H c Hc.
  apply H in Hc. now apply andb_true_iff in Hc as [-> _].
Qed.

Lemma key_value_key (k w : string) :
  is_key k = true -> key_value (k ++ String "=" w) = Some (k, w).
Proof.
  induction k as [|c k IH]; intros H.
  - reflexivity.
  - change (is_key (String c k))
      with (andb (andb (negb (Ascii.eqb c " ")) (negb (Ascii.eqb c "=")))
                 (is_key k)) in H.
    apply andb_true_iff in H as [Hc Hk].
    apply andb_true_iff in Hc as [_ Hc]. apply negb_true_iff in Hc.
    simpl. rewrite Hc, (IH Hk). reflexivity.
Qed.

Lemma words_key_prefix (k v : string) :
  no_space k = true ->
  words (k ++ String "=" v)
  = (k ++ String "=" (hd EmptyString (words v))) :: tl (words v).
Proof.
  induction k as [|c k IH]; intros H; simpl.
  - rewrite (words_hd_tl v) at 1. reflexivity.
  - rewrite no_space_cons in H. apply andb_true_iff in H as [Hc Hk].
    apply negb_true_iff in Hc. rewrite Hc, (IH Hk). reflexivity.
Qed.

(** The word group [key=v] yields the argument [key] with the first
    word of [v]; further words of [v] follow as they are. *)
Lemma args_key (k v : string) :
  is_key k = true ->
  args (k ++ String "=" v)
  = (k, hd EmptyString (words v)) :: args_of_words (tl (words v)).
Proof.
  intros Hk. unfold args.
  rewrite words_key_prefix by now apply is_key_no_space.
  simpl. now rewrite key_value_key.
Qed.

Lemma args_key_no_space (k v : string) :
  is_key k = true -> no_space v = true ->
  args (k ++ String "=" v) = [(k, v)].
Proof.
  intros Hk Hv. rewrite args_key by assumption.
  now rewrite words_no_space.
Qed.

Lemma supplies_In (cmd key : string) :
  supplies cmd key = true <-> In key (keys cmd).
Proof.
  unfold supplies. rewrite existsb_exists. split.
  - intros [k [Hin Heq]]. apply String.eqb_eq in Heq. now subst.
  - intros Hin. exists key. split; [assumption | apply String.eqb_refl].
Qed.

Lemma carries_In (cmd key v : string) :
  carries cmd key v = true <-> In (key, v) (args cmd).
Proof.
  unfold carries. rewrite existsb_exists. split.
  - intros [[k w] [Hin Heq]]. simpl in Heq.
    apply andb_true_iff in Heq as [Hk Hw].
    apply String.eqb_eq in Hk, Hw. now subst.
  - intros Hin. exists (key, v). split; [assumption|].
    simpl. now rewrite !String.eqb_refl.
Qed.

Lemma assoc_app_Some (key v : string) (l1 l2 : list (string * string)) :
  assoc key l1 = Some v -> assoc key (l1 ++ l2) = Some v.
Proof.
  induction l1 as [|[k w] l1 IH]; simpl; [discriminate|].
  destruct (String.eqb key k); auto.
Qed.

End CommandLineFacts.

(* ================================================================== *)
(** * The strings Python prints for numbers and UUIDs *)
(* ================================================================== *)

Section PrintedFacts.
Import CommandLine.

Lemma no_space_decimal (d : Decimal.uint) :
  no_space (DecimalString.NilEmpty.string_of_uint d) = true.
Proof. induction d; simpl; auto. Qed.

Lemma no_space_str_int (z : Z) : no_space (Py.str_int z) = true.
Proof.
  unfold Py.str_int, DecimalString.NilZero.string_of_int,
    DecimalString.NilZero.string_of_uint.
  destruct (Z.to_int z) as [d|d]; destruct d; try reflexivity;
    try rewrite no_space_cons; apply (no_space_decimal (_ d)) ||
    (cbn [negb Ascii.eqb andb]; apply (no_space_decimal (_ d))).
Qed.

Lemma no_space_zfill (n : nat) (s : string) :
  no_space s = true -> no_space (Py.zfill n s) = true.
Proof.
  intros Hs. unfold Py.zfill. rewrite no_space_app, Hs, andb_true_r.
  induction (n - String.length s)%nat as [|k IH]; simpl; auto.
Qed.

Lemma no_space_fixed6 (n : Z) : no_space (Py.fixed6 n) = true.
Proof.
  unfold Py.fixed6. rewrite !no_space_app, no_space_str_int.
  rewrite no_space_zfill by apply no_space_str_int. reflexivity.
Qed.

Lemma no_space_format_f (x : spec_float) : no_space (Py.format_f x) = true.
Proof.
  destruct x as [sg|sg| |sg m e]; simpl; try reflexivity;
    rewrite no_space_app; try rewrite no_space_fixed6;
    now destruct sg.
Qed.

Lemma no_space_hexadecimal (d : Hexadecimal.uint) :
  no_space (HexadecimalString.NilEmpty.string_of_uint d) = true.
Proof. induction d; simpl; auto. Qed.

Lemma no_space_hex32 (u : Z) : no_space (Uuid.hex32 u) = true.
Proof.
  unfold Uuid.hex32. apply no_space_zfill.
  unfold HexadecimalString.NilZero.string_of_uint.
  destruct (N.to_hex_uint (Z.to_N u)) as [|d|d|d|d|d|d|d|d|d|d|d|d|d|d|d|d];
    try reflexivity; apply (no_space_hexadecimal (_ d)).
Qed.

Lemma no_space_substring (s : string) (n m : nat) :
  no_space s = true -> no_space (String.substring n m s) = true.
Proof.
  revert n m. induction s as [|c s IH]; intros n m H.
  - destruct n, m; reflexivity.
  - rewrite no_space_cons in H. apply andb_true_iff in H as [Hc Hs].
    destruct n as [|n]; [destruct m as [|m]|]; simpl.
    + reflexivity.
    + rewrite no_space_cons, Hc. now apply IH.
    + now apply IH.
Qed.

Lemma no_space_uuid_str (u : Z) : no_space (Uuid.str u) = true.
Proof.
  unfold Uuid.str, Uuid.slice. cbv zeta.
  rewrite !no_space_app.
  rewrite !no_space_substring by apply no_space_hex32.
  reflexivity.
Qed.

(** [str] of an int determines the int. *)
Lemma str_int_inj (a b : Z) : Py.str_int a = Py.str_int b -> a = b.
Proof.
  assert (Hn : forall z, Z.to_int z <> Decimal.Pos Decimal.Nil
                         /\ Z.to_int z <> Decimal.Neg Decimal.Nil).
  { intros z. split; intros E; pose proof (DecimalZ.of_to z) as Hz;
      rewrite E in Hz; simpl in Hz; subst z; discriminate. }
  intros H. unfold Py.str_int in H.
  apply DecimalZ.to_int_inj.
  assert (Some (Z.to_int a) = Some (Z.to_int b)) as [= ->]; [|reflexivity].
  rewrite <- (DecimalString.NilZero.isi (Z.to_int a)) by apply Hn.
  rewrite <- (DecimalString.NilZero.isi (Z.to_int b)) by apply Hn.
  now rewrite H.
Qed.

(** ** The bits [uuid4] fixes *)

Lemma uuid_int_version (urandom : list Byte.byte) :
  Z.land (Z.shiftr (Launched.uuid_int urandom) 76) 15 = 4.
Proof.
  unfold Launched.uuid_int.
  generalize (Uuid.from_bytes urandom) as x. intros x.
  apply Z.bits_inj'. intros n Hn.
  rewrite Z.land_spec, Z.shiftr_spec by assumption.
  rewrite Z.lor_spec, Z.land_spec, Z.lnot_spec by lia.
  destruct (Z.ltb_spec n 4) as [Hlt|Hge].
  - assert (Hc : n = 0 \/ n = 1 \/ n = 2 \/ n = 3) by lia.
    destruct Hc as [-> | [-> | [-> | ->]]]; cbn; rewrite ?andb_false_r; reflexivity.
  - replace (Z.testbit 15 n) with false.
    2:{ symmetry. apply (Z.bits_above_log2 15 n); [lia|]. cbn. lia. }
    replace (Z.testbit 4 n) with false.
    2:{ symmetry. apply (Z.bits_above_log2 4 n); [lia|]. cbn. lia. }
    now rewrite andb_false_r.
Qed.

Lemma uuid_int_variant (urandom : list Byte.byte) :
  Z.land (Z.shiftr (Launched.uuid_int urandom) 62) 3 = 2.
Proof.
  unfold Launched.uuid_int.
  generalize (Uuid.from_bytes urandom) as x. intros x.
  apply Z.bits_inj'. intros n Hn.
  rewrite Z.land_spec, Z.shiftr_spec by assumption.
  rewrite Z.lor_spec, Z.land_spec, Z.lnot_spec by lia.
  rewrite Z.lor_spec, Z.land_spec, Z.lnot_spec by lia.
  destruct (Z.ltb_spec n 2) as [Hlt|Hge].
  - assert (Hc : n = 0 \/ n = 1) by lia.
    destruct Hc as [-> | ->]; cbn; rewrite ?andb_false_r, ?orb_false_r;
      reflexivity.
  - replace (Z.testbit 3 n) with false.
    2:{ symmetry. apply (Z.bits_above_log2 3 n); [lia|]. cbn. lia. }
    replace (Z.testbit 2 n) with false.
    2:{ symmetry. apply (Z.bits_above_log2 2 n); [lia|]. cbn. lia. }
    now rewrite andb_false_r.
Qed.

End PrintedFacts.

Section LauncherFacts.
Import Py Launcher Launched.

Lemma trainer_command_line_eq (hp : hyperparameters) (job_id : string) :
  trainer_command_line hp job_id = Ok (trainer_line hp job_id).
Proof.
  unfold trainer_line.
  rewrite <- (append_empty_r (train_conv_layers hp)).
  reflexivity.
Qed.

Lemma agent_cmd_line_eq (hp : hyperparameters) (job_id : string) :
  agent_cmd_line hp job_id = Ok (agent_line hp job_id).
Proof.
  unfold agent_line.
  rewrite <- (append_empty_r (train_conv_layers hp)).
  reflexivity.
Qed.

Lemma make_job_id_eq (urandom : list Byte.byte) :
  List.length urandom = 16%nat ->
  Uuid.uuid4 urandom = Ok (uuid_int urandom) /\
  make_job_id urandom = Ok (job_id_of urandom).
Proof.
  intros Hlen.
  assert (Hu : Uuid.uuid4 urandom = Ok (uuid_int urandom)).
  { unfold Uuid.uuid4, Uuid.UUID. rewrite Hlen. reflexivity. }
  split; [exact Hu|].
  unfold make_job_id. rewrite Hu. unfold job_id_of.
  rewrite <- (append_empty_r (Uuid.str (uuid_int urandom))).
  reflexivity.
Qed.

Lemma make_job_id_short (urandom : list Byte.byte) :
  List.length urandom <> 16%nat ->
  make_job_id urandom = Raise ValueError.
Proof.
  intros Hlen. unfold make_job_id, Uuid.uuid4, Uuid.UUID.
  apply Nat.eqb_neq in Hlen. rewrite Hlen. reflexivity.
Qed.

(** The two command lines of the notebook as it stands, for the job
    identifier the sample bytes give. *)
Example job_id_of_sample :
  make_job_id Sample.urandom = Ok "distributed_rl_12345678-9abc-4ef0-8f1e-2d3c4b5a6978".
Proof. vm_compute. reflexivity. Qed.

Example trainer_command_line_of_notebook :
  trainer_command_line notebook_hyperparameters "distributed_rl_12345678-9abc-4ef0-8f1e-2d3c4b5a6978"
  = Ok "call C:\\prereq\\mount.bat && C:\\ProgramData\\Anaconda3\\Scripts\\activate.bat py36 && python -u Z:\\scripts_downpour\\manage.py runserver 0.0.0.0:80 data_dir=Z:\\\\ role=trainer experiment_name=distributed_rl_12345678-9abc-4ef0-8f1e-2d3c4b5a6978 batch_update_frequency=300 weights_path=Z:\data\pretrain_model_weights.h5 train_conv_layers=false".
Proof. vm_compute. reflexivity. Qed.

Example agent_cmd_line_of_notebook :
  agent_cmd_line notebook_hyperparameters "distributed_rl_12345678-9abc-4ef0-8f1e-2d3c4b5a6978"
  = Ok "call C:\\prereq\\mount.bat && C:\\ProgramData\\Anaconda3\\Scripts\\activate.bat py36 && python -u Z:\\scripts_downpour\\app\\distributed_agent.py data_dir=Z: role=agent max_epoch_runtime_sec=30 per_iter_epsilon_reduction=0.003000 min_epsilon=0.100000 batch_size=32 replay_memory_size=2000 experiment_name=distributed_rl_12345678-9abc-4ef0-8f1e-2d3c4b5a6978 weights_path=Z:\data\pretrain_model_weights.h5 train_conv_layers=false".
Proof. vm_compute. reflexivity. Qed.

Lemma agent_task_eq (cfg : NOTEBOOK_CONFIG) (hp : hyperparameters)
  (job_id : string) (i : Z) :
  agent_task cfg (agent_line hp job_id) i = Ok (agent cfg hp job_id i).
Proof.
  unfold agent.
  rewrite <- (append_empty_r (str_int i)).
  reflexivity.
Qed.

Lemma for_each_append {A B : Type} (f : A -> B) (xs : list A) (acc : list B) :
  for_each xs (fun acc x => t <- Ok (f x) ;; Ok (acc ++ [t])%list) acc
  = Ok (acc ++ map f xs)%list.
Proof.
  revert acc. induction xs as [|x xs IH]; intros acc; simpl.
  - now rewrite app_nil_r.
  - rewrite IH, <- app_assoc. reflexivity.
Qed.

Lemma for_each_ext {A B : Type} (xs : list A) (f g : B -> A -> result B)
  (acc : B) :
  (forall b a, f b a = g b a) -> for_each xs f acc = for_each xs g acc.
Proof.
  intros Hfg. revert acc. induction xs as [|x xs IH]; intros acc; simpl.
  - reflexivity.
  - rewrite Hfg. destruct (g acc x); simpl; auto.
Qed.

Lemma build_tasks_eq (cfg : NOTEBOOK_CONFIG) (hp : hyperparameters)
  (job_id : string) :
  build_tasks cfg hp job_id = Ok (tasks cfg hp job_id).
Proof.
  unfold build_tasks, trainer_task.
  rewrite trainer_command_line_eq, agent_cmd_line_eq. simpl bind.
  rewrite (for_each_ext _ _
             (fun acc x => t <- Ok (agent cfg hp job_id x) ;;
                           Ok (acc ++ [t])%list)).
  - rewrite for_each_append. reflexivity.
  - intros b a. rewrite <- (agent_task_eq cfg hp job_id a). reflexivity.
Qed.

(** A run of the notebook with sixteen random bytes: it raises nothing
    and sends two requests, the job and then its tasks. *)
Lemma launch_run (cfg : NOTEBOOK_CONFIG) (hp : hyperparameters)
  (urandom : list Byte.byte) :
  List.length urandom = 16%nat ->
  launch cfg hp urandom []
  = (Ok (job_id_of urandom),
     [job_add (job cfg (job_id_of urandom));
      task_add_collection (job_id_of urandom)
        (tasks cfg hp (job_id_of urandom))]).
Proof.
  intros Hlen. unfold launch, then_, lift, send, ret.
  destruct (make_job_id_eq urandom Hlen) as [_ ->].
  rewrite build_tasks_eq. reflexivity.
Qed.

Lemma roster_launch (cfg : NOTEBOOK_CONFIG) (hp : hyperparameters)
  (urandom : list Byte.byte) :
  List.length urandom = 16%nat ->
  roster (job_id_of urandom) (snd (launch cfg hp urandom []))
  = tasks cfg hp (job_id_of urandom).
Proof.
  intros Hlen. rewrite (launch_run cfg hp urandom Hlen).
  unfold roster. cbn [snd flat_map]. rewrite String.eqb_refl.
  now rewrite !app_nil_r.
Qed.

(** ** The arguments on the two command lines *)

Lemma args_trainer_head :
  CommandLine.args trainer_head = [("data_dir", "Z:\\\\"); ("role", "trainer")].
Proof. vm_compute. reflexivity. Qed.

Lemma args_agent_head :
  CommandLine.args agent_head = [("data_dir", "Z:"); ("role", "agent")].
Proof. vm_compute. reflexivity. Qed.

Lemma args_trainer_line (hp : hyperparameters) (job_id : string) :
  CommandLine.args (trainer_line hp job_id)
  = ([("data_dir", "Z:\\\\"); ("role", "trainer")]
     ++ CommandLine.args ("experiment_name" ++ String "=" job_id)
     ++ CommandLine.args ("batch_update_frequency"
                          ++ String "=" (str_int (batch_update_frequency hp)))
     ++ CommandLine.args ("weights_path" ++ String "=" (weights_path hp))
     ++ CommandLine.args ("train_conv_layers"
                          ++ String "=" (train_conv_layers hp)))%list.
Proof.
  unfold trainer_line. rewrite args_concat. cbn [flat_map].
  rewrite args_trainer_head, app_nil_r. reflexivity.
Qed.

Lemma args_agent_line (hp : hyperparameters) (job_id : string) :
  CommandLine.args (agent_line hp job_id)
  = ([("data_dir", "Z:"); ("role", "agent")]
     ++ CommandLine.args ("max_epoch_runtime_sec"
                          ++ String "=" (str_int (max_epoch_runtime_sec hp)))
     ++ CommandLine.args ("per_iter_epsilon_reduction"
                          ++ String "=" (format_f (per_iter_epsilon_reduction hp)))
     ++ CommandLine.args ("min_epsilon" ++ String "=" (format_f (min_epsilon hp)))
     ++ CommandLine.args ("batch_size" ++ String "=" (str_int (batch_size hp)))
     ++ CommandLine.args ("replay_memory_size"
                          ++ String "=" (str_int (replay_memory_size hp)))
     ++ CommandLine.args ("experiment_name" ++ String "=" job_id)
     ++ CommandLine.args ("weights_path" ++ String "=" (weights_path hp))
     ++ CommandLine.args ("train_conv_layers"
                          ++ String "=" (train_conv_layers hp)))%list.
Proof.
  unfold agent_line. rewrite args_concat. cbn [flat_map].
  rewrite args_agent_head, app_nil_r. reflexivity.
Qed.

Lemma role_trainer (cfg : NOTEBOOK_CONFIG) (hp : hyperparameters)
  (job_id : string) :
  role (trainer cfg hp job_id) = Some "trainer".
Proof.
  unfold role, CommandLine.arg. cbn [command_line trainer].
  rewrite args_trainer_line. now apply assoc_app_Some.
Qed.

Lemma role_agent (cfg : NOTEBOOK_CONFIG) (hp : hyperparameters)
  (job_id : string) (i : Z) :
  role (agent cfg hp job_id i) = Some "agent".
Proof.
  unfold role, CommandLine.arg. cbn [command_line agent].
  rewrite args_agent_line. now apply assoc_app_Some.
Qed.

Lemma args_trainer_line_exact (hp : hyperparameters) (job_id : string) :
  CommandLine.no_space job_id = true ->
  CommandLine.no_space (weights_path hp) = true ->
  CommandLine.no_space (train_conv_layers hp) = true ->
  CommandLine.args (trainer_line hp job_id)
  = [("data_dir", "Z:\\\\"); ("role", "trainer");
     ("experiment_name", job_id);
     ("batch_update_frequency", str_int (batch_update_frequency hp));
     ("weights_path", weights_path hp);
     ("train_conv_layers", train_conv_layers hp)].
Proof.
  intros Hj Hw Ht. rewrite args_trainer_line.
  rewrite !args_key_no_space;
    auto using no_space_str_int.
Qed.

Lemma args_agent_line_exact (hp : hyperparameters) (job_id : string) :
  CommandLine.no_space job_id = true ->
  CommandLine.no_space (weights_path hp) = true ->
  CommandLine.no_space (train_conv_layers hp) = true ->
  CommandLine.args (agent_line hp job_id)
  = [("data_dir", "Z:"); ("role", "agent");
     ("max_epoch_runtime_sec", str_int (max_epoch_runtime_sec hp));
     ("per_iter_epsilon_reduction", format_f (per_iter_epsilon_reduction hp));
     ("min_epsilon", format_f (min_epsilon hp));
     ("batch_size", str_int (batch_size hp));
     ("replay_memory_size", str_int (replay_memory_size hp));
     ("experiment_name", job_id);
     ("weights_path", weights_path hp);
     ("train_conv_layers", train_conv_layers hp)].
Proof.
  intros Hj Hw Ht. rewrite args_agent_line.
  rewrite !args_key_no_space;
    auto using no_space_str_int, no_space_format_f.
Qed.

Lemma no_space_job_id_of (urandom : list Byte.byte) :
  CommandLine.no_space (job_id_of urandom) = true.
Proof.
  unfold job_id_of. rewrite no_space_app, no_space_uuid_str. reflexivity.
Qed.

(** The keys a template names are on the command line whatever the
    values are. *)
Lemma trainer_line_supplies (hp : hyperparameters) (job_id : string)
  (s : Settings.setting) :
  In s Settings.for_trainer ->
  CommandLine.supplies (trainer_line hp job_id) (Settings.key s) = true.
Proof.
  intros Hs. apply supplies_In. unfold CommandLine.keys.
  rewrite args_trainer_line, !args_key by reflexivity.
  rewrite !map_app. cbn [map fst app].
  cbn in Hs. repeat (rewrite in_app_iff || cbn [In]).
  repeat (destruct Hs as [<-|Hs]; [cbn [Settings.key]; tauto|]).
  contradiction.
Qed.

Lemma agent_line_supplies (hp : hyperparameters) (job_id : string)
  (s : Settings.setting) :
  In s Settings.for_agent ->
  CommandLine.supplies (agent_line hp job_id) (Settings.key s) = true.
Proof.
  intros Hs. apply supplies_In. unfold CommandLine.keys.
  rewrite args_agent_line, !args_key by reflexivity.
  rewrite !map_app. cbn [map fst app].
  cbn in Hs. repeat (rewrite in_app_iff || cbn [In]).
  repeat (destruct Hs as [<-|Hs]; [cbn [Settings.key]; tauto|]).
  contradiction.
Qed.

(** A task of the roster is the trainer or one of the agents. *)
Lemma in_tasks (cfg : NOTEBOOK_CONFIG) (hp : hyperparameters)
  (job_id : string) (t : TaskAddParameter) :
  In t (tasks cfg hp job_id) ->
  t = trainer cfg hp job_id \/
  exists i, 0 <= i < batch_pool_size cfg - 1 /\ t = agent cfg hp job_id i.
Proof.
  intros [<-|Hin]; [now left|right].
  unfold agents, range in Hin. rewrite map_map in Hin.
  apply in_map_iff in Hin as [k [<- Hk]]. apply in_seq in Hk.
  exists (0 + Z.of_nat k). split; [lia|reflexivity].
Qed.

(** A run with sixteen random bytes and its roster: the trainer's task
    first, then the agents' tasks. *)
Lemma launch_roster (cfg : NOTEBOOK_CONFIG) (hp : hyperparameters)
  (urandom : list Byte.byte) :
  List.length urandom = 16%nat ->
  exists sent,
    launch cfg hp urandom [] = (Ok (job_id_of urandom), sent) /\
    roster (job_id_of urandom) sent
    = trainer cfg hp (job_id_of urandom) :: agents cfg hp (job_id_of urandom).
Proof.
  intros Hlen. eexists. split; [apply (launch_run cfg hp urandom Hlen)|].
  pose proof (roster_launch cfg hp urandom Hlen) as Hr.
  now rewrite (launch_run cfg hp urandom Hlen) in Hr.
Qed.

Lemma in_agents (cfg : NOTEBOOK_CONFIG) (hp : hyperparameters)
  (job_id : string) (a : TaskAddParameter) :
  In a (agents cfg hp job_id) ->
  exists i, 0 <= i < batch_pool_size cfg - 1 /\ a = agent cfg hp job_id i.
Proof.
  intros Hin.
  destruct (in_tasks cfg hp job_id a (or_intror Hin)) as [->|H]; [|exact H].
  unfold agents in Hin. apply in_map_iff in Hin as [i [Hi Hin]].
  exists i. split; [|now symmetry].
  unfold range in Hin. apply in_map_iff in Hin as [k [<- Hk]].
  apply in_seq in Hk. lia.
Qed.

(** The flag closes both command lines: it is their last word. *)
Lemma trainer_line_last_word (hp : hyperparameters) (job_id : string) :
  CommandLine.no_space (train_conv_layers hp) = true ->
  exists front,
    CommandLine.words (trainer_line hp job_id)
    = (front ++ [("train_conv_layers=" ++ train_conv_layers hp)%string])%list.
Proof.
  intros Hf. unfold trainer_line. rewrite words_concat. cbn [flat_map].
  rewrite (words_no_space ("train_conv_layers=" ++ train_conv_layers hp))
    by (rewrite no_space_app, Hf; reflexivity).
  rewrite app_nil_r, !app_assoc. eexists. reflexivity.
Qed.

Lemma agent_line_last_word (hp : hyperparameters) (job_id : string) :
  CommandLine.no_space (train_conv_layers hp) = true ->
  exists front,
    CommandLine.words (agent_line hp job_id)
    = (front ++ [("train_conv_layers=" ++ train_conv_layers hp)%string])%list.
Proof.
  intros Hf. unfold agent_line. rewrite words_concat. cbn [flat_map].
  rewrite (words_no_space ("train_conv_layers=" ++ train_conv_layers hp))
    by (rewrite no_space_app, Hf; reflexivity).
  rewrite app_nil_r, !app_assoc. eexists. reflexivity.
Qed.

End LauncherFacts.

(* ================================================================== *)
(** * The launcher: what every job is started with *)
(* ================================================================== *)

Section LauncherClaims.
Import Py Launcher Launched.

(** C1, as stated (every node is given every recognized value), fails on
    the notebook's own values with a pool of three: the trainer's
    command line has no maximum epoch runtime, epsilon reduction,
    minimum epsilon, batch size or replay memory size, and the agents'
    has no batch update frequency. *)
Lemma not_every_setting_on_every_command_line :
  let sent := snd (launch (Sample.cfg 3) notebook_hyperparameters
                          Sample.urandom []) in
  let ts := roster (job_id_of Sample.urandom) sent in
  map Settings.all_supplied ts = [false; false; false] /\
  map (fun t => filter (fun s => negb (CommandLine.supplies (command_line t)
                                         (Settings.key s)))
                       Settings.recognized) ts
  = [[Settings.maxEpochRuntimeSec; Settings.perIterEpsilonReduction;
      Settings.minEpsilon; Settings.batchSize; Settings.replayMemorySize];
     [Settings.batchUpdateFrequency];
     [Settings.batchUpdateFrequency]].
Proof. vm_compute. split; reflexivity. Qed.

Lemma has_role_trainer (cfg : NOTEBOOK_CONFIG) (hp : hyperparameters)
  (job_id r : string) :
  has_role r (trainer cfg hp job_id) = String.eqb r "trainer".
Proof. unfold has_role. now rewrite role_trainer. Qed.

Lemma has_role_agent (cfg : NOTEBOOK_CONFIG) (hp : hyperparameters)
  (job_id r : string) (i : Z) :
  has_role r (agent cfg hp job_id i) = String.eqb r "agent".
Proof. unfold has_role. now rewrite role_agent. Qed.

Lemma filter_agents (cfg : NOTEBOOK_CONFIG) (hp : hyperparameters)
  (job_id r : string) :
  filter (has_role r) (agents cfg hp job_id)
  = if String.eqb r "agent" then agents cfg hp job_id else [].
Proof.
  unfold agents. induction (range 0 (batch_pool_size cfg - 1)) as [|i l IH].
  - now destruct (String.eqb r "agent").
  - cbn [map filter]. rewrite has_role_agent, IH.
    now destruct (String.eqb r "agent").
Qed.

Lemma length_agents (cfg : NOTEBOOK_CONFIG) (hp : hyperparameters)
  (job_id : string) :
  List.length (agents cfg hp job_id) = Z.to_nat (batch_pool_size cfg - 1).
Proof.
  unfold agents, range. rewrite !length_map, length_seq. f_equal. lia.
Qed.

(** C1, amended: every launched job gives each node the recognized
    values its role's template names.  The roster is the trainer's task
    followed by [batch_pool_size - 1] agents' tasks (none when the pool
    has one node or less), each with the command line its cell formats.
    The trainer gets [data_dir], [role], [experiment_name] (the job
    identifier), [batch_update_frequency], [weights_path] and
    [train_conv_layers]; every agent gets [data_dir], [role],
    [max_epoch_runtime_sec], [per_iter_epsilon_reduction],
    [min_epsilon], [batch_size], [replay_memory_size],
    [experiment_name], [weights_path] and [train_conv_layers].  When
    the path and the flag hold no space, those are all the keys on the
    command line. *)
Theorem launcher_supplies_settings_by_role
  (cfg : NOTEBOOK_CONFIG) (hp : hyperparameters) (urandom : list Byte.byte) :
  List.length urandom = 16%nat ->
  exists sent t ags,
    launch cfg hp urandom [] = (Ok (job_id_of urandom), sent) /\
    roster (job_id_of urandom) sent = t :: ags /\
    List.length ags = Z.to_nat (batch_pool_size cfg - 1) /\
    role t = Some "trainer" /\
    trainer_command_line hp (job_id_of urandom) = Ok (command_line t) /\
    forallb (fun s => CommandLine.supplies (command_line t) (Settings.key s))
            Settings.for_trainer = true /\
    Forall (fun a =>
              role a = Some "agent" /\
              agent_cmd_line hp (job_id_of urandom) = Ok (command_line a) /\
              forallb (fun s => CommandLine.supplies (command_line a)
                                  (Settings.key s))
                      Settings.for_agent = true) ags /\
    forallb Settings.supplied_for_role (roster (job_id_of urandom) sent) = true /\
    (CommandLine.no_space (weights_path hp) = true ->
     CommandLine.no_space (train_conv_layers hp) = true ->
     Forall Settings.exactly_for_role (roster (job_id_of urandom) sent)).
Proof.
  intros Hlen. destruct (launch_roster cfg hp urandom Hlen) as [sent [Hrun Hr]].
  exists sent, (trainer cfg hp (job_id_of urandom)),
    (agents cfg hp (job_id_of urandom)).
  split; [exact Hrun|]. split; [exact Hr|].
  split; [apply length_agents|].
  split; [apply role_trainer|].
  split; [apply trainer_command_line_eq|].
  split.
  { apply forallb_forall. intros s Hs. now apply trainer_line_supplies. }
  split.
  { apply Forall_forall. intros a Ha.
    apply in_agents in Ha as [i [_ ->]].
    split; [apply role_agent|]. split; [apply agent_cmd_line_eq|].
    apply forallb_forall. intros s Hs. now apply agent_line_supplies. }
  rewrite Hr. fold (tasks cfg hp (job_id_of urandom)). split.
  - apply forallb_forall. intros t Ht.
    unfold Settings.supplied_for_role. apply forallb_forall. intros s Hs.
    apply in_tasks in Ht as [->|[i [_ ->]]].
    + rewrite role_trainer in Hs. now apply trainer_line_supplies.
    + rewrite role_agent in Hs. now apply agent_line_supplies.
  - intros Hw Hf. apply Forall_forall. intros t Ht.
    unfold Settings.exactly_for_role, CommandLine.keys.
    apply in_tasks in Ht as [->|[i [_ ->]]].
    + rewrite role_trainer. cbn [command_line trainer].
      rewrite args_trainer_line_exact; auto using no_space_job_id_of.
    + rewrite role_agent. cbn [command_line agent].
      rewrite args_agent_line_exact; auto using no_space_job_id_of.
Qed.

Lemma launcher_supplies_settings_by_role_witness :
  exists sent t ags,
    launch (Sample.cfg 3) notebook_hyperparameters Sample.urandom []
    = (Ok (job_id_of Sample.urandom), sent) /\
    roster (job_id_of Sample.urandom) sent = t :: ags /\
    List.length ags = 2%nat /\
    role t = Some "trainer" /\
    forallb (fun s => CommandLine.supplies (command_line t) (Settings.key s))
            Settings.for_trainer = true /\
    Forall (fun a =>
              role a = Some "agent" /\
              forallb (fun s => CommandLine.supplies (command_line a)
                                  (Settings.key s))
                      Settings.for_agent = true) ags /\
    Forall Settings.exactly_for_role (roster (job_id_of Sample.urandom) sent).
Proof.
  destruct (launcher_supplies_settings_by_role
              (Sample.cfg 3) notebook_hyperparameters Sample.urandom eq_refl)
    as (sent & t & ags & Hrun & Hr & Hlen & Ht & _ & Hts & Hags & _ & Hexact).
  exists sent, t, ags. split; [exact Hrun|]. split; [exact Hr|].
  split; [exact Hlen|]. split; [exact Ht|]. split; [exact Hts|].
  split.
  - apply (Forall_impl _ (P := fun a => _ /\ _ /\ _) ) with (2 := Hags).
    intros a (Ha & _ & Hs). split; assumption.
  - apply Hexact; reflexivity.
Defined.

(** C2: the roster of every launched job has exactly one task whose
    role is trainer and [N] tasks whose role is agent, with
    [N = batch_pool_size - 1] whenever [batch_pool_size >= 1] (and
    [N = 0] below that), so no configuration breaks the invariant. *)
Theorem roster_one_trainer_and_agents
  (cfg : NOTEBOOK_CONFIG) (hp : hyperparameters) (urandom : list Byte.byte) :
  List.length urandom = 16%nat ->
  exists sent,
    launch cfg hp urandom [] = (Ok (job_id_of urandom), sent) /\
    count_role "trainer" (roster (job_id_of urandom) sent) = 1%nat /\
    count_role "agent" (roster (job_id_of urandom) sent)
    = Z.to_nat (batch_pool_size cfg - 1) /\
    (1 <= batch_pool_size cfg ->
     Z.of_nat (count_role "agent" (roster (job_id_of urandom) sent))
     = batch_pool_size cfg - 1) /\
    List.length (roster (job_id_of urandom) sent)
    = (count_role "trainer" (roster (job_id_of urandom) sent)
       + count_role "agent" (roster (job_id_of urandom) sent))%nat.
Proof.
  intros Hlen. eexists. split; [apply (launch_run cfg hp urandom Hlen)|].
  pose proof (roster_launch cfg hp urandom Hlen) as Hr.
  rewrite (launch_run cfg hp urandom Hlen) in Hr. cbn [snd] in Hr.
  rewrite Hr. clear Hr.
  assert (Ht : count_role "trainer" (tasks cfg hp (job_id_of urandom)) = 1%nat).
  { unfold count_role, tasks. cbn [filter].
    rewrite has_role_trainer, filter_agents. reflexivity. }
  assert (Ha : count_role "agent" (tasks cfg hp (job_id_of urandom))
               = Z.to_nat (batch_pool_size cfg - 1)).
  { unfold count_role, tasks. cbn [filter].
    rewrite has_role_trainer, filter_agents. cbn [String.eqb Ascii.eqb].
    cbn. apply length_agents. }
  rewrite Ht, Ha. repeat split.
  - intros Hp. lia.
  - unfold tasks. cbn [List.length]. now rewrite length_agents.
Qed.

Lemma roster_one_trainer_and_agents_witness :
  exists sent,
    launch (Sample.cfg 5) notebook_hyperparameters Sample.urandom []
    = (Ok (job_id_of Sample.urandom), sent) /\
    count_role "trainer" (roster (job_id_of Sample.urandom) sent) = 1%nat /\
    Z.of_nat (count_role "agent" (roster (job_id_of Sample.urandom) sent))
    = 5 - 1.
Proof.
  destruct (roster_one_trainer_and_agents
              (Sample.cfg 5) notebook_hyperparameters Sample.urandom eq_refl)
    as [sent [Hrun [Htrainer [_ [Hagents _]]]]].
  exists sent. split; [exact Hrun|]. split; [exact Htrainer|].
  apply Hagents. cbn. lia.
Defined.

(** C8: the [train_conv_layers] value reaches every node as it is.
    Whatever [weights_path] is supplied, when the flag is a word without
    spaces (['false'] in the notebook) the roster is the trainer's task
    and the [batch_pool_size - 1] agents' tasks, each with the command
    line its cell formats, and on every one of these command lines
    [train_conv_layers=<flag>] is an argument and the last word. *)
Theorem train_conv_layers_carried
  (cfg : NOTEBOOK_CONFIG) (hp : hyperparameters) (urandom : list Byte.byte) :
  List.length urandom = 16%nat ->
  CommandLine.no_space (train_conv_layers hp) = true ->
  exists sent t ags,
    launch cfg hp urandom [] = (Ok (job_id_of urandom), sent) /\
    roster (job_id_of urandom) sent = t :: ags /\
    List.length ags = Z.to_nat (batch_pool_size cfg - 1) /\
    role t = Some "trainer" /\
    trainer_command_line hp (job_id_of urandom) = Ok (command_line t) /\
    Forall (fun a =>
              role a = Some "agent" /\
              agent_cmd_line hp (job_id_of urandom) = Ok (command_line a))
           ags /\
    Forall (fun x =>
              CommandLine.carries (command_line x)
                "train_conv_layers" (train_conv_layers hp) = true /\
              exists front,
                CommandLine.words (command_line x)
                = (front ++ [("train_conv_layers=" ++ train_conv_layers hp)%string])%list)
           (t :: ags).
Proof.
  intros Hlen Hflag.
  destruct (launch_roster cfg hp urandom Hlen) as [sent [Hrun Hr]].
  exists sent, (trainer cfg hp (job_id_of urandom)),
    (agents cfg hp (job_id_of urandom)).
  split; [exact Hrun|]. split; [exact Hr|].
  split; [apply length_agents|].
  split; [apply role_trainer|].
  split; [apply trainer_command_line_eq|].
  split.
  { apply Forall_forall. intros a Ha.
    apply in_agents in Ha as [i [_ ->]].
    split; [apply role_agent | apply agent_cmd_line_eq]. }
  apply Forall_forall. intros x Hx.
  change (In x (tasks cfg hp (job_id_of urandom))) in Hx.
  apply in_tasks in Hx as [->|[i [_ ->]]].
  - cbn [command_line trainer]. split.
    + apply carries_In. rewrite args_trainer_line.
      rewrite (args_key_no_space "train_conv_layers") by auto.
      rewrite !in_app_iff. cbn [In]. tauto.
    + now apply trainer_line_last_word.
  - cbn [command_line agent]. split.
    + apply carries_In. rewrite args_agent_line.
      rewrite (args_key_no_space "train_conv_layers") by auto.
      rewrite !in_app_iff. cbn [In]. tauto.
    + now apply agent_line_last_word.
Qed.

Lemma train_conv_layers_carried_witness :
  train_conv_layers notebook_hyperparameters = "false" /\
  weights_path notebook_hyperparameters = "Z:\data\pretrain_model_weights.h5" /\
  exists sent t ags,
    launch (Sample.cfg 3) notebook_hyperparameters Sample.urandom []
    = (Ok (job_id_of Sample.urandom), sent) /\
    roster (job_id_of Sample.urandom) sent = t :: ags /\
    List.length ags = 2%nat /\
    role t = Some "trainer" /\
    Forall (fun x =>
              CommandLine.carries (command_line x)
                "train_conv_layers" "false" = true)
           (t :: ags).
Proof.
  split; [reflexivity|]. split; [reflexivity|].
  destruct (train_conv_layers_carried
              (Sample.cfg 3) notebook_hyperparameters Sample.urandom
              eq_refl eq_refl)
    as (sent & t & ags & Hrun & Hr & Hlen & Ht & _ & _ & Hall).
  exists sent, t, ags. split; [exact Hrun|]. split; [exact Hr|].
  split; [exact Hlen|]. split; [exact Ht|].
  apply (Forall_impl _ (P := fun x => _ /\ _)) with (2 := Hall).
  intros x [Hx _]. exact Hx.
Defined.

Lemma NoDup_map_inj {A B : Type} (f : A -> B) (l : list A) :
  (forall x y, f x = f y -> x = y) -> NoDup l -> NoDup (map f l).
Proof.
  intros Hf Hl. induction Hl as [|x l Hx Hl IH]; simpl; constructor.
  - intros Hin. apply in_map_iff in Hin as [y [Hy Hin]].
    apply Hf in Hy. now subst.
  - exact IH.
Qed.

Lemma NoDup_range (a b : Z) : NoDup (range a b).
Proof.
  unfold range. apply NoDup_map_inj; [|apply seq_NoDup].
  intros x y Hxy. lia.
Qed.

Lemma append_inj_l (p a b : string) : p ++ a = p ++ b -> a = b.
Proof.
  induction p as [|c p IH]; simpl; [auto|].
  intros [= H]. auto.
Qed.

(** C10: all agent tasks of a launched job have one and the same command
    line, the agents' template filled with [max_epoch_runtime_sec],
    [per_iter_epsilon_reduction], [min_epsilon], [batch_size],
    [replay_memory_size], the experiment name, [weights_path] and
    [train_conv_layers]; they have the same user and instance settings
    too, and differ in their task id [AgentTask_i] and display name
    [Agent_i] only, which no two of them share. *)
Theorem agent_tasks_share_command_line
  (cfg : NOTEBOOK_CONFIG) (hp : hyperparameters) (urandom : list Byte.byte) :
  List.length urandom = 16%nat ->
  exists sent cmd,
    launch cfg hp urandom [] = (Ok (job_id_of urandom), sent) /\
    agent_cmd_line hp (job_id_of urandom) = Ok cmd /\
    let ags := filter (has_role "agent") (roster (job_id_of urandom) sent) in
    (forall a, In a ags ->
       command_line a = cmd /\
       user_identity a = {| user_name := batch_job_user_name cfg |} /\
       multi_instance_settings a = instance_settings) /\
    (forall a b, In a ags -> In b ags ->
       CommandLine.args (command_line a) = CommandLine.args (command_line b)) /\
    map id ags
    = map (fun i => "AgentTask_" ++ str_int i)
          (range 0 (batch_pool_size cfg - 1)) /\
    map display_name ags
    = map (fun i => "Agent_" ++ str_int i)
          (range 0 (batch_pool_size cfg - 1)) /\
    NoDup (map id ags) /\ NoDup (map display_name ags).
Proof.
  intros Hlen. exists (snd (launch cfg hp urandom [])), (agent_line hp (job_id_of urandom)).
  split; [now rewrite (launch_run cfg hp urandom Hlen)|].
  split; [apply agent_cmd_line_eq|].
  rewrite (roster_launch cfg hp urandom Hlen).
  assert (Hags : filter (has_role "agent") (tasks cfg hp (job_id_of urandom))
                 = agents cfg hp (job_id_of urandom)).
  { unfold tasks. cbn [filter]. rewrite has_role_trainer, filter_agents.
    reflexivity. }
  cbv zeta. rewrite Hags.
  assert (Hone : forall a, In a (agents cfg hp (job_id_of urandom)) ->
                 command_line a = agent_line hp (job_id_of urandom) /\
                 user_identity a = {| user_name := batch_job_user_name cfg |} /\
                 multi_instance_settings a = instance_settings).
  { intros a Ha. unfold agents in Ha.
    apply in_map_iff in Ha as [i [<- _]]. repeat split. }
  split; [exact Hone|].
  split.
  { intros a b Ha Hb.
    destruct (Hone a Ha) as [-> _], (Hone b Hb) as [-> _]. reflexivity. }
  unfold agents. rewrite !map_map. cbn [id display_name agent].
  split; [reflexivity|]. split; [reflexivity|].
  split; apply NoDup_map_inj; try apply NoDup_range;
    intros x y Hxy; apply append_inj_l in Hxy; now apply str_int_inj.
Qed.

Lemma agent_tasks_share_command_line_witness :
  exists sent cmd,
    launch (Sample.cfg 4) notebook_hyperparameters Sample.urandom []
    = (Ok (job_id_of Sample.urandom), sent) /\
    agent_cmd_line notebook_hyperparameters (job_id_of Sample.urandom) = Ok cmd /\
    let ags := filter (has_role "agent")
                      (roster (job_id_of Sample.urandom) sent) in
    (forall a, In a ags ->
       command_line a = cmd /\
       user_identity a = {| user_name := "user" |} /\
       multi_instance_settings a = instance_settings) /\
    (forall a b, In a ags -> In b ags ->
       CommandLine.args (command_line a) = CommandLine.args (command_line b)) /\
    map id ags
    = map (fun i => "AgentTask_" ++ str_int i) (range 0 (4 - 1)) /\
    map display_name ags
    = map (fun i => "Agent_" ++ str_int i) (range 0 (4 - 1)) /\
    NoDup (map id ags) /\ NoDup (map display_name ags).
Proof.
  apply (agent_tasks_share_command_line
           (Sample.cfg 4) notebook_hyperparameters Sample.urandom).
  reflexivity.
Defined.

End LauncherClaims.

(* ================================================================== *)
(** * The parameter server: versions and checkpoints *)
(* ================================================================== *)

Section ParameterServerFacts.
Import ParameterServer.

Variable blob : Type.
Variable apply_gradient : blob -> blob -> blob.

Implicit Types (s : server blob) (g : GradientUpdate blob)
  (w : bool) (gs : list (GradientUpdate blob * bool)).

Lemma push_version s g w :
  version (snapshot (fst (fst (push apply_gradient s g w))))
  = version (snapshot s) + 1
  /\ snd (fst (push apply_gradient s g w)) = version (snapshot s) + 1.
Proof.
  unfold push. destruct (_ =? _); split; reflexivity.
Qed.

Lemma push_frequency s g w :
  checkpointFrequency (fst (fst (push apply_gradient s g w)))
  = checkpointFrequency s.
Proof.
  unfold push. destruct (_ =? _); reflexivity.
Qed.

Lemma run_cons s g w gs :
  run apply_gradient s ((g, w) :: gs)
  = {| after := fst (fst (push apply_gradient s g w));
       reported := snd (fst (push apply_gradient s g w));
       persists := snd (push apply_gradient s g w) |}
      :: run apply_gradient (fst (fst (push apply_gradient s g w))) gs.
Proof.
  cbn [run]. destruct (push apply_gradient s g w) as [[s' v] ps].
  reflexivity.
Qed.

Lemma length_run s gs :
  List.length (run apply_gradient s gs) = List.length gs.
Proof.
  revert s. induction gs as [|[g w] gs IH]; intros s; [reflexivity|].
  rewrite run_cons. cbn [List.length]. now rewrite IH.
Qed.

Lemma reported_run s gs :
  map reported (run apply_gradient s gs)
  = map (fun k => version (snapshot s) + Z.of_nat k) (seq 1 (List.length gs)).
Proof.
  revert s. induction gs as [|[g w] gs IH]; intros s; [reflexivity|].
  rewrite run_cons. cbn [map List.length seq reported]. f_equal.
  - rewrite (proj2 (push_version s g w)). lia.
  - rewrite IH, (proj1 (push_version s g w)).
    rewrite <- (seq_shift (List.length gs) 1), map_map.
    apply map_ext. intros k. lia.
Qed.

Lemma versions_run s gs :
  map (fun a => version (snapshot (after a))) (run apply_gradient s gs)
  = map (fun k => version (snapshot s) + Z.of_nat k) (seq 1 (List.length gs)).
Proof.
  revert s. induction gs as [|[g w] gs IH]; intros s; [reflexivity|].
  rewrite run_cons. cbn [map List.length seq after]. f_equal.
  - rewrite (proj1 (push_version s g w)). lia.
  - rewrite IH, (proj1 (push_version s g w)).
    rewrite <- (seq_shift (List.length gs) 1), map_map.
    apply map_ext. intros k. lia.
Qed.

(** C3: over any sequence of pushes the version goes up by exactly one
    per applied push, whether or not a durable write fails on the way:
    the [k]-th push reports the starting version plus [k], the
    snapshots held carry the consecutive versions from the starting
    one, and no two of them share a version. *)
Theorem version_increases_by_one_per_push s gs :
  (forall s' g w,
      snd (fst (push apply_gradient s' g w)) = version (snapshot s') + 1 /\
      version (snapshot (fst (fst (push apply_gradient s' g w))))
      = version (snapshot s') + 1) /\
  map reported (run apply_gradient s gs)
  = map (fun k => version (snapshot s) + Z.of_nat k)
        (seq 1 (List.length gs)) /\
  map version (snapshots apply_gradient s gs)
  = map (fun k => version (snapshot s) + Z.of_nat k)
        (seq 0 (S (List.length gs))) /\
  NoDup (map version (snapshots apply_gradient s gs)).
Proof.
  assert (Hv : map version (snapshots apply_gradient s gs)
               = map (fun k => version (snapshot s) + Z.of_nat k)
                     (seq 0 (S (List.length gs)))).
  { unfold snapshots. cbn [map seq]. f_equal; [lia|].
    rewrite map_map. apply versions_run. }
  split; [intros s' g w; split; apply push_version|].
  split; [apply reported_run|].
  split; [exact Hv|].
  rewrite Hv. apply NoDup_map_inj; [|apply seq_NoDup].
  intros x y Hxy. lia.
Qed.

(** ** Checkpoints *)

Lemma push_since s g :
  1 <= checkpointFrequency s -> 0 <= since s < checkpointFrequency s ->
  since (fst (fst (push apply_gradient s g true)))
  = (since s + 1) mod checkpointFrequency s
  /\ List.length (snd (push apply_gradient s g true))
     = (if (since s + 1) mod checkpointFrequency s =? 0
        then 1%nat else 0%nat)
  /\ (forall p, In p (snd (push apply_gradient s g true)) ->
        persisted_snapshot p
        = snapshot (fst (fst (push apply_gradient s g true)))).
Proof.
  unfold since, push. intros HF Hu.
  destruct (Z.eqb_spec (updatesSinceCheckpoint (counters s) + 1)
                       (checkpointFrequency s)) as [E|E];
    cbn [fst snd counters updatesSinceCheckpoint snapshot List.length].
  - rewrite E, Z.mod_same by lia. repeat split.
    intros p [<-|[]]. reflexivity.
  - rewrite Z.mod_small by lia.
    destruct (Z.eqb_spec (updatesSinceCheckpoint (counters s) + 1) 0); [lia|].
    repeat split. intros p [].
Qed.

Lemma cadence_from s gs :
  1 <= checkpointFrequency s -> 0 <= since s < checkpointFrequency s ->
  Forall (fun gw => snd gw = true) gs ->
  map (fun a => List.length (persists a)) (run apply_gradient s gs)
  = map (fun j => if (since s + Z.of_nat j) mod checkpointFrequency s =? 0
                  then 1%nat else 0%nat)
        (seq 1 (List.length gs))
  /\ map (fun a => since (after a)) (run apply_gradient s gs)
     = map (fun j => (since s + Z.of_nat j) mod checkpointFrequency s)
           (seq 1 (List.length gs))
  /\ Forall (fun a => forall p, In p (persists a) ->
                        persisted_snapshot p = snapshot (after a))
            (run apply_gradient s gs).
Proof.
  revert s. induction gs as [|[g w] gs IH]; intros s HF Hu Hok.
  - repeat split. constructor.
  - inversion Hok as [|gw gs' Hw Hrest]; subst. cbn [snd] in Hw. subst w.
    rewrite run_cons. cbn [map List.length seq after persists].
    destruct (push_since s g HF Hu) as (Hs & Hl & Hp).
    set (s' := fst (fst (push apply_gradient s g true))) in *.
    assert (HF' : checkpointFrequency s' = checkpointFrequency s)
      by apply push_frequency.
    assert (Hu' : 0 <= since s' < checkpointFrequency s').
    { rewrite Hs, HF'. apply Z.mod_pos_bound. lia. }
    destruct (IH s' ltac:(lia) Hu' Hrest) as (IH1 & IH2 & IH3).
    assert (Hmod : forall k : nat,
               (since s' + Z.of_nat k) mod checkpointFrequency s'
               = (since s + Z.of_nat (S k)) mod checkpointFrequency s).
    { intros k. rewrite HF', Hs, Zplus_mod_idemp_l. f_equal. lia. }
    split; [|split].
    + f_equal; [exact Hl|].
      rewrite IH1, <- (seq_shift (List.length gs) 1), map_map.
      apply map_ext. intros k. now rewrite Hmod.
    + f_equal; [exact Hs|].
      rewrite IH2, <- (seq_shift (List.length gs) 1), map_map.
      apply map_ext. intros k. now rewrite Hmod.
    + constructor; [exact Hp | exact IH3].
Qed.


End ParameterServerFacts.



(* ================================================================== *)
(** * The replay memory *)
(* ================================================================== *)

Section ReplayMemoryFacts.
Import ReplayMemory.

Variable transition : Type.

Implicit Types (m : memory transition) (t : transition)
  (ts : list transition).

Lemma capacity_push m t : capacity (push m t) = capacity m.
Proof. unfold push. now destruct (Nat.eqb _ _). Qed.

Lemma capacity_push_all m ts : capacity (push_all m ts) = capacity m.
Proof.
  revert m. induction ts as [|t ts IH]; intros m; [reflexivity|].
  cbn [push_all fold_left]. fold (push_all (push m t) ts).
  now rewrite IH, capacity_push.
Qed.

Lemma lastn_all (n : nat) (l : list transition) :
  (List.length l <= n)%nat -> lastn n l = l.
Proof.
  intros H. unfold lastn. replace (List.length l - n)%nat with 0%nat by lia.
  reflexivity.
Qed.

Lemma lastn_length (n : nat) (l : list transition) :
  List.length (lastn n l) = Nat.min n (List.length l).
Proof. unfold lastn. rewrite length_skipn. lia. Qed.

Lemma lastn_snoc (n : nat) (l : list transition) t :
  (1 <= n)%nat -> lastn n (lastn n l ++ [t]) = lastn n (l ++ [t]).
Proof.
  intros Hn. unfold lastn.
  rewrite !length_app, length_skipn. cbn [List.length].
  destruct (Nat.le_gt_cases (List.length l) n) as [Hle|Hgt].
  - replace (List.length l - n)%nat with 0%nat by lia.
    rewrite Nat.sub_0_r. reflexivity.
  - replace (List.length l - (List.length l - n) + 1 - n)%nat
      with 1%nat by lia.
    rewrite !skipn_app, length_skipn, skipn_skipn.
    replace (1 - (List.length l - (List.length l - n)))%nat
      with 0%nat by lia.
    replace (List.length l + 1 - n - List.length l)%nat with 0%nat by lia.
    replace (1 + (List.length l - n))%nat
      with (List.length l + 1 - n)%nat by lia.
    reflexivity.
Qed.

(** One push keeps the last [capacity] of what was there and the new
    transition. *)
Lemma contents_push m t :
  (1 <= capacity m)%nat -> (size m <= capacity m)%nat ->
  contents (push m t) = lastn (capacity m) (contents m ++ [t]).
Proof.
  intros Hc Hs. unfold push, size in *.
  destruct (Nat.eqb_spec (List.length (contents m)) (capacity m)) as [E|E];
    cbn [contents].
  - unfold lastn. rewrite length_app. cbn [List.length].
    replace (List.length (contents m) + 1 - capacity m)%nat with 1%nat by lia.
    destruct (contents m) as [|x l]; [cbn in E; lia|]. reflexivity.
  - rewrite lastn_all; [reflexivity|]. rewrite length_app. cbn. lia.
Qed.

Lemma size_push m t :
  (1 <= capacity m)%nat -> (size m <= capacity m)%nat ->
  (size (push m t) <= capacity (push m t))%nat.
Proof.
  intros Hc Hs. rewrite capacity_push. unfold size.
  rewrite contents_push by assumption. rewrite lastn_length. lia.
Qed.

Lemma contents_push_all m ts :
  (1 <= capacity m)%nat -> (size m <= capacity m)%nat ->
  contents (push_all m ts) = lastn (capacity m) (contents m ++ ts)
  /\ (size (push_all m ts) <= capacity m)%nat.
Proof.
  revert m. induction ts as [|t ts IH]; intros m Hc Hs.
  - cbn [push_all fold_left]. rewrite app_nil_r.
    split; [|exact Hs]. symmetry. now apply lastn_all.
  - cbn [push_all fold_left]. fold (push_all (push m t) ts).
    pose proof (size_push m t Hc Hs) as Hs'.
    pose proof (capacity_push m t) as Hc'.
    destruct (IH (push m t) ltac:(lia) Hs') as [IH1 IH2].
    rewrite Hc' in IH1, IH2. split; [|exact IH2].
    rewrite IH1, contents_push by assumption.
    replace (contents m ++ t :: ts)%list
      with ((contents m ++ [t]) ++ ts)%list by now rewrite <- app_assoc.
    generalize (contents m ++ [t])%list as l. intros l.
    clear -Hc. revert l. induction ts as [|u us IHu]; intros l.
    + rewrite !app_nil_r. unfold lastn at 1. rewrite lastn_length.
      replace (Nat.min (capacity m) (List.length l) - capacity m)%nat
        with 0%nat by lia. reflexivity.
    + replace (lastn (capacity m) l ++ u :: us)%list
        with ((lastn (capacity m) l ++ [u]) ++ us)%list
        by now rewrite <- app_assoc.
      replace (l ++ u :: us)%list with ((l ++ [u]) ++ us)%list
        by now rewrite <- app_assoc.
      rewrite <- (IHu (l ++ [u])%list), <- (IHu (lastn _ l ++ [u])%list).
      now rewrite lastn_snoc.
Qed.

(** C4: a memory of capacity [c >= 1] that receives [c + k]
    transitions ([k >= 1]) holds exactly the last [c] of them, in the
    order they came; a full memory gives up its oldest transition at each
    push; capacity 3 receiving [A, B, C, D] ends as [B, C, D]; and at no
    point does the size exceed the capacity. *)
Theorem replay_memory_keeps_last_capacity m ts (k : nat) :
  (1 <= capacity m)%nat ->
  (size m <= capacity m)%nat ->
  (1 <= k)%nat ->
  List.length ts = (capacity m + k)%nat ->
  contents (push_all m ts) = skipn k ts /\
  size (push_all m ts) = capacity m /\
  (forall n, (size (push_all m (firstn n ts)) <= capacity m)%nat) /\
  (forall m' t, size m' = capacity m' ->
                contents (push m' t) = (tl (contents m') ++ [t])%list) /\
  (forall A B C D : transition,
      contents (push_all (empty 3) [A; B; C; D]) = [B; C; D]).
Proof.
  intros Hc Hs Hk Hlen.
  destruct (contents_push_all m ts Hc Hs) as [Hcont _].
  assert (Hskip : contents (push_all m ts) = skipn k ts).
  { rewrite Hcont. unfold lastn, size in *.
    rewrite length_app, Hlen, skipn_app.
    rewrite skipn_all2 by lia. cbn [app]. f_equal. lia. }
  split; [exact Hskip|].
  split.
  { unfold size. rewrite Hskip, length_skipn. lia. }
  split.
  { intros n. apply (contents_push_all m (firstn n ts) Hc Hs). }
  split.
  { intros m' t E. unfold push. apply Nat.eqb_eq in E. now rewrite E. }
  reflexivity.
Qed.

End ReplayMemoryFacts.

Lemma replay_memory_keeps_last_capacity_witness :
  ReplayMemory.contents (ReplayMemory.push_all (ReplayMemory.empty 2) [1; 2; 3; 4; 5]) = [4; 5] /\
  ReplayMemory.size (ReplayMemory.push_all (ReplayMemory.empty 2) [1; 2; 3; 4; 5]) = 2%nat.
Proof.
  pose proof (replay_memory_keeps_last_capacity
                Z (ReplayMemory.empty 2) [1; 2; 3; 4; 5] 3%nat) as H.
  cbn [ReplayMemory.capacity ReplayMemory.empty ReplayMemory.size
       ReplayMemory.contents List.length] in H.
  destruct (H ltac:(lia) ltac:(lia) ltac:(lia) eq_refl) as (H1 & H2 & _).
  split; [exact H1 | exact H2].
Defined.


Section SampleFacts.
Import ReplayMemory.

Variable transition : Type.

Implicit Types (m : memory transition) (pool : list transition).

Lemma without_spec (i : nat) pool (t : transition) :
  nth_error pool i = Some t ->
  Permutation (t :: without i pool) pool
  /\ S (List.length (without i pool)) = List.length pool.
Proof.
  intros Hnth. apply nth_error_split in Hnth as (l1 & l2 & -> & <-).
  unfold without. rewrite firstn_app, firstn_all, Nat.sub_diag.
  cbn [firstn]. rewrite app_nil_r.
  rewrite skipn_app, skipn_all2 by lia.
  replace (S (List.length l1) - List.length l1)%nat with 1%nat by lia.
  cbn [skipn app]. split.
  - apply Permutation_middle.
  - rewrite !length_app. cbn [List.length]. lia.
Qed.

(** [n] draws from a pool of at least [n] take [n] distinct positions:
    what is drawn, put back with what is left, is the pool again. *)
Lemma draw_spec (rnd : list nat) (n : nat) pool :
  (n <= List.length pool)%nat ->
  List.length (draw rnd n pool) = n
  /\ exists rest, Permutation (draw rnd n pool ++ rest) pool.
Proof.
  revert rnd pool. induction n as [|n IH]; intros rnd pool Hn.
  - split; [reflexivity|]. exists pool. apply Permutation_refl.
  - cbn [draw].
    assert (Hi : (hd 0%nat rnd mod List.length pool < List.length pool)%nat)
      by (apply Nat.mod_upper_bound; lia).
    destruct (nth_error pool (hd 0%nat rnd mod List.length pool)) as [t|] eqn:E.
    2:{ apply nth_error_None in E. lia. }
    destruct (without_spec _ _ _ E) as [Hperm Hlen].
    destruct (IH (tl rnd) (without (hd 0%nat rnd mod List.length pool) pool)
                 ltac:(lia)) as [IHlen [rest IHperm]].
    split; [cbn [List.length]; now rewrite IHlen|].
    exists rest. cbn [app].
    apply Permutation_trans with (2 := Hperm).
    now apply perm_skip.
Qed.

(** C5: [sample(n)] fails with [InsufficientDataError] when the size is
    below [n]; otherwise it returns [n] transitions taken from [n]
    distinct places of the buffer (joined with the ones not taken they
    are the contents again); in both cases the memory it hands back is
    the memory it was given. *)
Theorem sample_fails_or_draws (rnd : list nat) (n : nat) m :
  ((size m < n)%nat -> sample rnd n m = (inl InsufficientDataError, m)) /\
  ((n <= size m)%nat ->
   exists picked rest,
     sample rnd n m = (inr picked, m) /\
     List.length picked = n /\
     Permutation (picked ++ rest) (contents m)) /\
  snd (sample rnd n m) = m.
Proof.
  unfold sample. split; [|split].
  - intros H. apply Nat.ltb_lt in H. now rewrite H.
  - intros H. apply Nat.ltb_ge in H. rewrite H.
    apply Nat.ltb_ge in H.
    destruct (draw_spec rnd n (contents m) H) as [Hl [rest Hp]].
    exists (draw rnd n (contents m)), rest. auto.
  - now destruct (Nat.ltb _ _).
Qed.

End SampleFacts.

Lemma sample_fails_or_draws_witness :
  let m := ReplayMemory.push_all (ReplayMemory.empty 4) [10; 20; 30; 40; 50] in
  ReplayMemory.sample [7; 2; 9]%nat 5 m
  = (inl ReplayMemory.InsufficientDataError, m) /\
  (exists picked rest,
      ReplayMemory.sample [7; 2; 9]%nat 3 m = (inr picked, m) /\
      List.length picked = 3%nat /\
      Permutation (picked ++ rest) (ReplayMemory.contents m)).
Proof.
  cbv zeta. split.
  - apply (proj1 (sample_fails_or_draws Z [7; 2; 9]%nat 5 _)). cbn. lia.
  - apply (proj1 (proj2 (sample_fails_or_draws Z [7; 2; 9]%nat 3 _))).
    cbn. lia.
Defined.

(* ================================================================== *)
(** * The epsilon schedule *)
(* ================================================================== *)

Section EpsilonFacts.
Import Epsilon.
Local Open Scope Q_scope.

Variable c : schedule.
Hypothesis reduction_nonneg : 0 <= perIterEpsilonReduction c.
Hypothesis starts_above_floor : minEpsilon c <= initialEpsilon c.

Lemma inject_succ (i : nat) :
  inject_Z (Z.of_nat (S i)) == inject_Z (Z.of_nat i) + 1.
Proof. rewrite Nat2Z.inj_succ. unfold Z.succ. now rewrite inject_Z_plus. Qed.

Lemma iteration_floor (epsilon : Q) : minEpsilon c <= iteration c epsilon.
Proof. unfold iteration. apply Q.le_max_l. Qed.

Lemma iteration_le (epsilon : Q) :
  minEpsilon c <= epsilon -> iteration c epsilon <= epsilon.
Proof.
  intros H. unfold iteration. apply Q.max_lub; [exact H|]. lra.
Qed.

Lemma floor_epsilon_after (i : nat) : minEpsilon c <= epsilon_after c i.
Proof.
  destruct i as [|i]; cbn [epsilon_after];
    [exact starts_above_floor | apply iteration_floor].
Qed.

Lemma epsilon_after_closed_form (i : nat) :
  epsilon_after c i == closed_form c i.
Proof.
  unfold closed_form. induction i as [|i IH].
  - cbn [epsilon_after Z.of_nat]. change (inject_Z 0) with 0.
    destruct (Q.max_spec (minEpsilon c)
                (initialEpsilon c - 0 * perIterEpsilonReduction c))
      as [[H1 H2]|[H1 H2]]; rewrite H2; lra.
  - cbn [epsilon_after]. unfold iteration.
    rewrite inject_succ.
    set (q := inject_Z (Z.of_nat i)) in *.
    destruct (Q.max_spec (minEpsilon c)
                (initialEpsilon c - q * perIterEpsilonReduction c))
      as [[H1 H2]|[H1 H2]]; rewrite H2 in IH;
    destruct (Q.max_spec (minEpsilon c)
                (initialEpsilon c - (q + 1) * perIterEpsilonReduction c))
      as [[H3 H4]|[H3 H4]]; rewrite H4;
    destruct (Q.max_spec (minEpsilon c)
                (epsilon_after c i - perIterEpsilonReduction c))
      as [[H5 H6]|[H5 H6]]; rewrite H6; lra.
Qed.

(** C6: when the reduction is not negative and the schedule starts at or
    above the floor, epsilon after [i] iterations equals
    [max(minEpsilon, initialEpsilon - i * perIterEpsilonReduction)], it
    never goes below [minEpsilon], and it never goes up from one
    iteration to the next. *)
Theorem epsilon_anneals_to_floor (i : nat) :
  epsilon_after c i
  == Qmax (minEpsilon c)
          (initialEpsilon c - inject_Z (Z.of_nat i) * perIterEpsilonReduction c)
  /\ minEpsilon c <= epsilon_after c i
  /\ epsilon_after c (S i) <= epsilon_after c i
  /\ epsilon_after c 0 == initialEpsilon c.
Proof.
  split; [apply epsilon_after_closed_form|].
  split; [apply floor_epsilon_after|].
  split; [apply iteration_le, floor_epsilon_after|].
  reflexivity.
Qed.

End EpsilonFacts.

Lemma epsilon_anneals_to_floor_witness :
  let c := {| Epsilon.initialEpsilon := 1;
              Epsilon.minEpsilon := 1 # 10;
              Epsilon.perIterEpsilonReduction := 3 # 1000 |} in
  (Epsilon.epsilon_after c 100 == 7 # 10)%Q /\
  (Epsilon.epsilon_after c 301 == 1 # 10)%Q.
Proof.
  cbv zeta.
  set (c := {| Epsilon.initialEpsilon := 1;
               Epsilon.minEpsilon := 1 # 10;
               Epsilon.perIterEpsilonReduction := 3 # 1000 |}).
  assert (H1 : (0 <= Epsilon.perIterEpsilonReduction c)%Q) by (cbn; lra).
  assert (H2 : (Epsilon.minEpsilon c <= Epsilon.initialEpsilon c)%Q)
    by (cbn; lra).
  split.
  - rewrite (proj1 (epsilon_anneals_to_floor c H1 H2 100)). reflexivity.
  - rewrite (proj1 (epsilon_anneals_to_floor c H1 H2 301)). reflexivity.
Defined.

(* ================================================================== *)
(** * The roster as the service receives it *)
(* ================================================================== *)

Section RosterFacts.
Import Py Launcher Launched.

Lemma in_range (a b i : Z) : In i (range a b) <-> a <= i < b.
Proof.
  unfold range. rewrite in_map_iff. split.
  - intros [k [<- Hk]]. apply in_seq in Hk. lia.
  - intros Hi. exists (Z.to_nat (i - a)). split; [lia|].
    apply in_seq. lia.
Qed.

Lemma ids_of_tasks (cfg : NOTEBOOK_CONFIG) (hp : hyperparameters)
  (job_id : string) :
  map id (tasks cfg hp job_id)
  = "TrainerTask"
    :: map (fun i => "AgentTask_" ++ str_int i)
           (range 0 (batch_pool_size cfg - 1)).
Proof. unfold tasks, agents. cbn [map id trainer]. now rewrite map_map. Qed.

Lemma names_of_tasks (cfg : NOTEBOOK_CONFIG) (hp : hyperparameters)
  (job_id : string) :
  map display_name (tasks cfg hp job_id)
  = "Trainer"
    :: map (fun i => "Agent_" ++ str_int i)
           (range 0 (batch_pool_size cfg - 1)).
Proof.
  unfold tasks, agents. cbn [map display_name trainer]. now rewrite map_map.
Qed.

(** X1: no two tasks of a launched job share a task id or a display name, and
    the task ids are [TrainerTask] and [AgentTask_i] for the [i] from 0
    up to [batch_pool_size - 2], no other. *)
Theorem roster_task_ids_unique
  (cfg : NOTEBOOK_CONFIG) (hp : hyperparameters) (urandom : list Byte.byte) :
  List.length urandom = 16%nat ->
  exists sent,
    launch cfg hp urandom [] = (Ok (job_id_of urandom), sent) /\
    NoDup (map id (roster (job_id_of urandom) sent)) /\
    NoDup (map display_name (roster (job_id_of urandom) sent)) /\
    (forall s, In s (map id (roster (job_id_of urandom) sent)) <->
               s = "TrainerTask" \/
               exists i, 0 <= i < batch_pool_size cfg - 1 /\
                         s = "AgentTask_" ++ str_int i).
Proof.
  intros Hlen. eexists. split; [apply (launch_run cfg hp urandom Hlen)|].
  pose proof (roster_launch cfg hp urandom Hlen) as Hr.
  rewrite (launch_run cfg hp urandom Hlen) in Hr. cbn [snd] in Hr.
  rewrite Hr, ids_of_tasks, names_of_tasks. clear Hr.
  split; [|split].
  - constructor.
    + intros Hin. apply in_map_iff in Hin as [i [Hi _]]. discriminate.
    + apply NoDup_map_inj; [|apply NoDup_range].
      intros x y Hxy. apply append_inj_l in Hxy. now apply str_int_inj.
  - constructor.
    + intros Hin. apply in_map_iff in Hin as [i [Hi _]]. discriminate.
    + apply NoDup_map_inj; [|apply NoDup_range].
      intros x y Hxy. apply append_inj_l in Hxy. now apply str_int_inj.
  - intros s. cbn [In]. rewrite in_map_iff. split.
    + intros [<-|[i [<- Hi]]]; [now left|right].
      exists i. split; [now apply in_range in Hi|reflexivity].
    + intros [->|[i [Hi ->]]]; [now left|right].
      exists i. split; [reflexivity|now apply in_range].
Qed.

Lemma roster_task_ids_unique_witness :
  exists sent,
    launch (Sample.cfg 4) notebook_hyperparameters Sample.urandom []
    = (Ok (job_id_of Sample.urandom), sent) /\
    NoDup (map id (roster (job_id_of Sample.urandom) sent)) /\
    In "AgentTask_2" (map id (roster (job_id_of Sample.urandom) sent)) /\
    ~ In "AgentTask_3" (map id (roster (job_id_of Sample.urandom) sent)).
Proof.
  destruct (roster_task_ids_unique
              (Sample.cfg 4) notebook_hyperparameters Sample.urandom eq_refl)
    as [sent [Hrun [Hids [_ Hchar]]]].
  exists sent. split; [exact Hrun|]. split; [exact Hids|]. split.
  - apply Hchar. right. exists 2. split; [cbn; lia | reflexivity].
  - intros Hin. apply Hchar in Hin as [Habs|[i [Hi Habs]]]; [discriminate|].
    change ("AgentTask_" ++ str_int 3 = "AgentTask_" ++ str_int i) in Habs.
    apply append_inj_l, str_int_inj in Habs. cbn in Hi. lia.
Defined.

Lemma instances_tasks (cfg : NOTEBOOK_CONFIG) (hp : hyperparameters)
  (job_id : string) :
  BatchId.instances (tasks cfg hp job_id)
  = Z.of_nat (List.length (tasks cfg hp job_id)).
Proof.
  unfold tasks, agents, BatchId.instances.
  cbn [map fold_right multi_instance_settings trainer number_of_instances
       instance_settings List.length].
  rewrite map_map. cbn [multi_instance_settings agent number_of_instances
                        instance_settings].
  induction (range 0 (batch_pool_size cfg - 1)) as [|i l IH].
  - reflexivity.
  - cbn [map fold_right List.length] in *. lia.
Qed.

(** X2: every task of a launched job, the trainer's as the agents', runs as
    the configured job user and asks for one instance with the
    coordination command [cls]; together the tasks ask for as many
    instances as the pool has nodes when [batch_pool_size >= 1], and a
    pool of one node or less gets the trainer task alone. *)
Theorem roster_one_instance_per_node
  (cfg : NOTEBOOK_CONFIG) (hp : hyperparameters) (urandom : list Byte.byte) :
  List.length urandom = 16%nat ->
  exists sent,
    launch cfg hp urandom [] = (Ok (job_id_of urandom), sent) /\
    Forall (fun t =>
              user_identity t = {| user_name := batch_job_user_name cfg |} /\
              multi_instance_settings t
              = {| number_of_instances := 1;
                   coordination_command_line := "cls" |})
           (roster (job_id_of urandom) sent) /\
    BatchId.instances (roster (job_id_of urandom) sent)
    = Z.max 1 (batch_pool_size cfg) /\
    (batch_pool_size cfg <= 1 ->
     map id (roster (job_id_of urandom) sent) = ["TrainerTask"]).
Proof.
  intros Hlen. eexists. split; [apply (launch_run cfg hp urandom Hlen)|].
  pose proof (roster_launch cfg hp urandom Hlen) as Hr.
  rewrite (launch_run cfg hp urandom Hlen) in Hr. cbn [snd] in Hr.
  rewrite Hr. clear Hr. split; [|split].
  - apply Forall_forall. intros t Ht.
    apply in_tasks in Ht as [->|[i [_ ->]]]; split; reflexivity.
  - rewrite instances_tasks. unfold tasks. cbn [List.length].
    rewrite length_agents. lia.
  - intros Hp. rewrite ids_of_tasks. unfold range.
    replace (Z.to_nat (batch_pool_size cfg - 1 - 0)) with 0%nat by lia.
    reflexivity.
Qed.

Lemma roster_one_instance_per_node_witness :
  exists sent,
    launch (Sample.cfg 1) notebook_hyperparameters Sample.urandom []
    = (Ok (job_id_of Sample.urandom), sent) /\
    BatchId.instances (roster (job_id_of Sample.urandom) sent) = 1 /\
    map id (roster (job_id_of Sample.urandom) sent) = ["TrainerTask"].
Proof.
  destruct (roster_one_instance_per_node
              (Sample.cfg 1) notebook_hyperparameters Sample.urandom eq_refl)
    as [sent [Hrun [_ [Hinst Hone]]]].
  exists sent. split; [exact Hrun|]. split; [exact Hinst|].
  apply Hone. cbn. lia.
Defined.

End RosterFacts.

(* ================================================================== *)
(** * Reading the arguments back *)
(* ================================================================== *)

Section ReadBackFacts.
Import Py Launcher Launched CommandLine.

(** [str] of an int reads back as the int. *)
Lemma int_value_str_int (z : Z) : Decode.int_value (str_int z) = Some z.
Proof.
  unfold Decode.int_value, str_int.
  rewrite DecimalString.NilZero.isi.
  - cbn [option_map]. now rewrite DecimalZ.of_to.
  - intros E. pose proof (DecimalZ.of_to z) as Hz. rewrite E in Hz.
    cbn in Hz. subst z. discriminate.
  - intros E. pose proof (DecimalZ.of_to z) as Hz. rewrite E in Hz.
    cbn in Hz. subst z. discriminate.
Qed.

Lemma first_word_no_space (v : string) :
  no_space v = true -> Decode.first_word v = v.
Proof. intros H. unfold Decode.first_word. now rewrite words_no_space. Qed.

(** The arguments of the trainer's line up to the path, whatever the
    path and the flag hold. *)
Lemma args_trainer_line_front (hp : hyperparameters) (job_id : string) :
  no_space job_id = true ->
  args (trainer_line hp job_id)
  = ([("data_dir", "Z:\\\\"); ("role", "trainer");
      ("experiment_name", job_id);
      ("batch_update_frequency", str_int (batch_update_frequency hp));
      ("weights_path", Decode.first_word (weights_path hp))]
     ++ args_of_words (tl (words (weights_path hp)))
     ++ ("train_conv_layers", Decode.first_word (train_conv_layers hp))
        :: args_of_words (tl (words (train_conv_layers hp))))%list.
Proof.
  intros Hj. rewrite args_trainer_line.
  rewrite (args_key_no_space "experiment_name") by auto.
  rewrite (args_key_no_space "batch_update_frequency")
    by auto using no_space_str_int.
  rewrite !args_key by reflexivity. reflexivity.
Qed.

Lemma args_agent_line_front (hp : hyperparameters) (job_id : string) :
  no_space job_id = true ->
  args (agent_line hp job_id)
  = ([("data_dir", "Z:"); ("role", "agent");
      ("max_epoch_runtime_sec", str_int (max_epoch_runtime_sec hp));
      ("per_iter_epsilon_reduction", format_f (per_iter_epsilon_reduction hp));
      ("min_epsilon", format_f (min_epsilon hp));
      ("batch_size", str_int (batch_size hp));
      ("replay_memory_size", str_int (replay_memory_size hp));
      ("experiment_name", job_id);
      ("weights_path", Decode.first_word (weights_path hp))]
     ++ args_of_words (tl (words (weights_path hp)))
     ++ ("train_conv_layers", Decode.first_word (train_conv_layers hp))
        :: args_of_words (tl (words (train_conv_layers hp))))%list.
Proof.
  intros Hj. rewrite args_agent_line.
  rewrite (args_key_no_space "experiment_name") by auto.
  rewrite !(args_key_no_space _ (str_int _)) by auto using no_space_str_int.
  rewrite !(args_key_no_space _ (format_f _)) by auto using no_space_format_f.
  rewrite !args_key by reflexivity. reflexivity.
Qed.

(** X3: the trainer reads back what the notebook wrote: with a job
    identifier free of spaces, the leftmost arguments of its command
    line are the fixed [data_dir] and [role], the job identifier as
    [experiment_name], and [batch_update_frequency] as a decimal that
    denotes the notebook's integer.  Of [weights_path] the first word
    is what arrives under its key; when the path holds no space it
    arrives whole, and then the same is true of [train_conv_layers]. *)
Theorem trainer_arguments_read_back (hp : hyperparameters) (job_id : string) :
  no_space job_id = true ->
  exists cmd,
    trainer_command_line hp job_id = Ok cmd /\
    arg cmd "data_dir" = Some "Z:\\\\" /\
    arg cmd "role" = Some "trainer" /\
    arg cmd "experiment_name" = Some job_id /\
    option_map Decode.int_value (arg cmd "batch_update_frequency")
    = Some (Some (batch_update_frequency hp)) /\
    arg cmd "weights_path" = Some (Decode.first_word (weights_path hp)) /\
    (no_space (weights_path hp) = true ->
     arg cmd "weights_path" = Some (weights_path hp) /\
     arg cmd "train_conv_layers"
     = Some (Decode.first_word (train_conv_layers hp)) /\
     (no_space (train_conv_layers hp) = true ->
      arg cmd "train_conv_layers" = Some (train_conv_layers hp))).
Proof.
  intros Hj. exists (trainer_line hp job_id).
  split; [apply trainer_command_line_eq|].
  unfold arg. rewrite (args_trainer_line_front hp job_id Hj).
  cbn [app assoc]. repeat (split; [reflexivity|]).
  split.
  { cbn. now rewrite int_value_str_int. }
  split; [reflexivity|].
  intros Hw. rewrite (first_word_no_space _ Hw).
  split; [reflexivity|].
  rewrite (words_no_space _ Hw). cbn.
  split; [reflexivity|].
  intros Hf. now rewrite (first_word_no_space _ Hf).
Qed.

Lemma trainer_arguments_read_back_witness :
  exists cmd,
    trainer_command_line notebook_hyperparameters (job_id_of Sample.urandom)
    = Ok cmd /\
    arg cmd "experiment_name" = Some (job_id_of Sample.urandom) /\
    option_map Decode.int_value (arg cmd "batch_update_frequency")
    = Some (Some 300) /\
    arg cmd "weights_path" = Some "Z:\data\pretrain_model_weights.h5" /\
    arg cmd "train_conv_layers" = Some "false".
Proof.
  destruct (trainer_arguments_read_back
              notebook_hyperparameters (job_id_of Sample.urandom) eq_refl)
    as [cmd [Hcmd [_ [_ [Hexp [Hfreq [_ Hrest]]]]]]].
  destruct (Hrest eq_refl) as [Hpath [_ Hflag]].
  exists cmd. split; [exact Hcmd|]. split; [exact Hexp|].
  split; [exact Hfreq|]. split; [exact Hpath|].
  apply Hflag. reflexivity.
Defined.

(** X4: the agents read back what the notebook wrote: with a job identifier
    free of spaces, the leftmost arguments of the agents' command line
    are the fixed [data_dir] and [role], the three integers
    [max_epoch_runtime_sec], [batch_size] and [replay_memory_size] as
    decimals that denote the notebook's integers, the two epsilon
    numbers in their six-decimal form, and the job identifier as
    [experiment_name].  Of [weights_path] the first word is what
    arrives; when the path holds no space it arrives whole, and then the
    same is true of [train_conv_layers]. *)
Theorem agent_arguments_read_back (hp : hyperparameters) (job_id : string) :
  no_space job_id = true ->
  exists cmd,
    agent_cmd_line hp job_id = Ok cmd /\
    arg cmd "data_dir" = Some "Z:" /\
    arg cmd "role" = Some "agent" /\
    option_map Decode.int_value (arg cmd "max_epoch_runtime_sec")
    = Some (Some (max_epoch_runtime_sec hp)) /\
    arg cmd "per_iter_epsilon_reduction"
    = Some (format_f (per_iter_epsilon_reduction hp)) /\
    arg cmd "min_epsilon" = Some (format_f (min_epsilon hp)) /\
    option_map Decode.int_value (arg cmd "batch_size")
    = Some (Some (batch_size hp)) /\
    option_map Decode.int_value (arg cmd "replay_memory_size")
    = Some (Some (replay_memory_size hp)) /\
    arg cmd "experiment_name" = Some job_id /\
    arg cmd "weights_path" = Some (Decode.first_word (weights_path hp)) /\
    (no_space (weights_path hp) = true ->
     arg cmd "weights_path" = Some (weights_path hp) /\
     arg cmd "train_conv_layers"
     = Some (Decode.first_word (train_conv_layers hp)) /\
     (no_space (train_conv_layers hp) = true ->
      arg cmd "train_conv_layers" = Some (train_conv_layers hp))).
Proof.
  intros Hj. exists (agent_line hp job_id).
  split; [apply agent_cmd_line_eq|].
  unfold arg. rewrite (args_agent_line_front hp job_id Hj).
  cbn [app assoc].
  split; [reflexivity|]. split; [reflexivity|].
  split. { cbn. now rewrite int_value_str_int. }
  split; [reflexivity|]. split; [reflexivity|].
  split. { cbn. now rewrite int_value_str_int. }
  split. { cbn. now rewrite int_value_str_int. }
  split; [reflexivity|]. split; [reflexivity|].
  intros Hw. rewrite (first_word_no_space _ Hw).
  split; [reflexivity|].
  rewrite (words_no_space _ Hw). cbn.
  split; [reflexivity|].
  intros Hf. now rewrite (first_word_no_space _ Hf).
Qed.

Lemma agent_arguments_read_back_witness :
  exists cmd,
    agent_cmd_line notebook_hyperparameters (job_id_of Sample.urandom)
    = Ok cmd /\
    option_map Decode.int_value (arg cmd "max_epoch_runtime_sec")
    = Some (Some 30) /\
    arg cmd "per_iter_epsilon_reduction" = Some "0.003000" /\
    arg cmd "min_epsilon" = Some "0.100000" /\
    option_map Decode.int_value (arg cmd "batch_size") = Some (Some 32) /\
    option_map Decode.int_value (arg cmd "replay_memory_size")
    = Some (Some 2000) /\
    arg cmd "weights_path" = Some "Z:\data\pretrain_model_weights.h5" /\
    arg cmd "train_conv_layers" = Some "false".
Proof.
  destruct (agent_arguments_read_back
              notebook_hyperparameters (job_id_of Sample.urandom) eq_refl)
    as [cmd [Hcmd [_ [_ [Hsec [Hred [Hmin [Hbatch [Hmem [_ [_ Hrest]]]]]]]]]]].
  destruct (Hrest eq_refl) as [Hpath [_ Hflag]].
  exists cmd. split; [exact Hcmd|]. split; [exact Hsec|].
  split; [exact Hred|]. split; [exact Hmin|]. split; [exact Hbatch|].
  split; [exact Hmem|]. split; [exact Hpath|].
  apply Hflag. reflexivity.
Defined.

(** X5: the roster of a launched job is the trainer's task and the
    [batch_pool_size - 1] agents' tasks, each with the command line its
    cell formats, and trainer and agents are told the same experiment
    name; when [weights_path] holds no space they are told the same
    path and the same first word of [train_conv_layers].  The data
    directory is the one value they are not told alike: the trainer's
    is [Z:] followed by four backslashes, the agents' is [Z:] alone. *)
Theorem roster_agrees_on_shared_settings
  (cfg : NOTEBOOK_CONFIG) (hp : hyperparameters) (urandom : list Byte.byte) :
  List.length urandom = 16%nat ->
  exists sent t ags,
    launch cfg hp urandom [] = (Ok (job_id_of urandom), sent) /\
    roster (job_id_of urandom) sent = t :: ags /\
    List.length ags = Z.to_nat (batch_pool_size cfg - 1) /\
    role t = Some "trainer" /\
    trainer_command_line hp (job_id_of urandom) = Ok (command_line t) /\
    arg (command_line t) "experiment_name" = Some (job_id_of urandom) /\
    arg (command_line t) "data_dir" = Some "Z:\\\\" /\
    Forall (fun a =>
              role a = Some "agent" /\
              agent_cmd_line hp (job_id_of urandom) = Ok (command_line a) /\
              arg (command_line a) "experiment_name"
              = Some (job_id_of urandom) /\
              arg (command_line a) "data_dir" = Some "Z:") ags /\
    (no_space (weights_path hp) = true ->
     Forall (fun x =>
               arg (command_line x) "weights_path" = Some (weights_path hp) /\
               arg (command_line x) "train_conv_layers"
               = Some (Decode.first_word (train_conv_layers hp)))
            (t :: ags)).
Proof.
  intros Hlen.
  destruct (launch_roster cfg hp urandom Hlen) as [sent [Hrun Hr]].
  pose proof (no_space_job_id_of urandom) as Hj.
  exists sent, (trainer cfg hp (job_id_of urandom)),
    (agents cfg hp (job_id_of urandom)).
  split; [exact Hrun|]. split; [exact Hr|].
  split; [apply length_agents|].
  split; [apply role_trainer|].
  split; [apply trainer_command_line_eq|].
  unfold arg at 1 2. cbn [command_line trainer].
  rewrite (args_trainer_line_front hp _ Hj).
  split; [reflexivity|]. split; [reflexivity|].
  split.
  - apply Forall_forall. intros a Ha.
    apply in_agents in Ha as [i [_ ->]].
    split; [apply role_agent|]. split; [apply agent_cmd_line_eq|].
    unfold arg. cbn [command_line agent].
    rewrite (args_agent_line_front hp _ Hj). split; reflexivity.
  - intros Hw. apply Forall_forall. intros x Hx.
    change (In x (tasks cfg hp (job_id_of urandom))) in Hx.
    apply in_tasks in Hx as [->|[i [_ ->]]].
    + unfold arg. cbn [command_line trainer].
      rewrite (args_trainer_line_front hp _ Hj).
      rewrite (words_no_space _ Hw), (first_word_no_space _ Hw).
      split; reflexivity.
    + unfold arg. cbn [command_line agent].
      rewrite (args_agent_line_front hp _ Hj).
      rewrite (words_no_space _ Hw), (first_word_no_space _ Hw).
      split; reflexivity.
Qed.

Lemma roster_agrees_on_shared_settings_witness :
  exists sent t ags,
    launch (Sample.cfg 3) notebook_hyperparameters Sample.urandom []
    = (Ok (job_id_of Sample.urandom), sent) /\
    roster (job_id_of Sample.urandom) sent = t :: ags /\
    List.length ags = 2%nat /\
    arg (command_line t) "data_dir" = Some "Z:\\\\" /\
    Forall (fun a => arg (command_line a) "data_dir" = Some "Z:") ags /\
    Forall (fun x =>
              arg (command_line x) "weights_path"
              = Some "Z:\data\pretrain_model_weights.h5" /\
              arg (command_line x) "train_conv_layers" = Some "false")
           (t :: ags).
Proof.
  destruct (roster_agrees_on_shared_settings
              (Sample.cfg 3) notebook_hyperparameters Sample.urandom eq_refl)
    as (sent & t & ags & Hrun & Hr & Hlen & _ & _ & _ & Hdir & Hags & Hshared).
  exists sent, t, ags. split; [exact Hrun|]. split; [exact Hr|].
  split; [exact Hlen|]. split; [exact Hdir|]. split.
  - apply (Forall_impl _ (P := fun a => _ /\ _ /\ _ /\ _)) with (2 := Hags).
    intros a (_ & _ & _ & Ha). exact Ha.
  - exact (Hshared eq_refl).
Defined.

End ReadBackFacts.

(* ================================================================== *)
(** * The characters and lengths of printed texts *)
(* ================================================================== *)

Section TextFacts.
Import Decode.

Variable P : ascii -> bool.

Lemma all_chars_cons (c : ascii) (s : string) :
  all_chars P (String c s) = andb (P c) (all_chars P s).
Proof. reflexivity. Qed.

Lemma all_chars_app (a b : string) :
  all_chars P (a ++ b) = andb (all_chars P a) (all_chars P b).
Proof.
  induction a as [|c a IH]; [reflexivity|].
  cbn [append]. rewrite !all_chars_cons, IH. now rewrite andb_assoc.
Qed.

Lemma all_chars_substring (s : string) (n m : nat) :
  all_chars P s = true -> all_chars P (String.substring n m s) = true.
Proof.
  revert n m. induction s as [|c s IH]; intros n m H.
  - destruct n, m; reflexivity.
  - rewrite all_chars_cons in H. apply andb_true_iff in H as [Hc Hs].
    destruct n as [|n]; [destruct m as [|m]|]; cbn [String.substring].
    + reflexivity.
    + rewrite all_chars_cons, Hc. now apply IH.
    + now apply IH.
Qed.

Lemma all_chars_zfill (n : nat) (s : string) :
  P "0" = true -> all_chars P s = true -> all_chars P (Py.zfill n s) = true.
Proof.
  intros H0 Hs. unfold Py.zfill. rewrite all_chars_app, Hs, andb_true_r.
  induction (n - String.length s)%nat as [|k IH]; [reflexivity|].
  cbn [Py.zeros]. now rewrite all_chars_cons, H0, IH.
Qed.

Hypothesis P_digits :
  forallb P (list_ascii_of_string "0123456789") = true.

Lemma all_chars_decimal (d : Decimal.uint) :
  all_chars P (DecimalString.NilEmpty.string_of_uint d) = true.
Proof.
  cbn in P_digits. repeat rewrite andb_true_iff in P_digits.
  induction d; cbn [DecimalString.NilEmpty.string_of_uint];
    rewrite ?all_chars_cons, ?IHd; try reflexivity;
    rewrite andb_true_r; tauto.
Qed.

Lemma all_chars_str_int (z : Z) :
  P "-" = true -> all_chars P (Py.str_int z) = true.
Proof.
  intros Hm. pose proof (all_chars_decimal Decimal.zero) as H0.
  unfold Py.str_int, DecimalString.NilZero.string_of_int,
    DecimalString.NilZero.string_of_uint.
  destruct (Z.to_int z) as [d|d]; destruct d;
    rewrite ?all_chars_cons, ?Hm; cbn [andb];
    try exact H0; apply (all_chars_decimal (_ d)).
Qed.

Lemma all_chars_str_int_nonneg (z : Z) :
  0 <= z -> all_chars P (Py.str_int z) = true.
Proof.
  intros Hz. pose proof (all_chars_decimal Decimal.zero) as H0.
  unfold Py.str_int. destruct z as [|p|p]; [exact H0| |lia].
  cbn [Z.to_int DecimalString.NilZero.string_of_int].
  unfold DecimalString.NilZero.string_of_uint.
  destruct (Pos.to_uint p) eqn:E; try exact H0;
    rewrite <- E; apply all_chars_decimal.
Qed.

End TextFacts.

Section IdentifierFacts.
Import Py Launcher Launched Decode.

Lemma length_append (a b : string) :
  String.length (a ++ b) = (String.length a + String.length b)%nat.
Proof. induction a as [|c a IH]; cbn; [reflexivity | now rewrite IH]. Qed.

Lemma length_substring (s : string) (n m : nat) :
  (n + m <= String.length s)%nat ->
  String.length (String.substring n m s) = m.
Proof.
  revert n m. induction s as [|c s IH]; intros n m H; cbn in H.
  - destruct n, m; try reflexivity; lia.
  - destruct n as [|n]; [destruct m as [|m]|]; cbn [String.substring].
    + reflexivity.
    + cbn [String.length]. f_equal. apply IH. lia.
    + apply IH. lia.
Qed.

Lemma substring_prefix (p s : string) :
  String.substring 0 (String.length p) (p ++ s) = p.
Proof.
  induction p as [|c p IH]; cbn.
  - now destruct s.
  - now rewrite IH.
Qed.

Lemma length_zeros (n : nat) : String.length (zeros n) = n.
Proof. induction n as [|n IH]; cbn; [reflexivity | now rewrite IH]. Qed.

Lemma length_zfill (w : nat) (s : string) :
  String.length (zfill w s) = Nat.max w (String.length s).
Proof. unfold zfill. rewrite length_append, length_zeros. lia. Qed.

Lemma all_chars_hexadecimal (P : ascii -> bool) (d : Hexadecimal.uint) :
  forallb P (list_ascii_of_string "0123456789abcdef") = true ->
  all_chars P (HexadecimalString.NilEmpty.string_of_uint d) = true.
Proof.
  intros HP. cbn in HP. repeat rewrite andb_true_iff in HP.
  induction d; cbn [HexadecimalString.NilEmpty.string_of_uint];
    rewrite ?all_chars_cons, ?IHd; try reflexivity;
    rewrite andb_true_r; tauto.
Qed.

Lemma valid_uuid_str (u : Z) : BatchId.valid (Uuid.str u) = true.
Proof.
  assert (Hhex : BatchId.valid (Uuid.hex32 u) = true).
  { unfold BatchId.valid, Uuid.hex32.
    apply all_chars_zfill; [reflexivity|].
    unfold HexadecimalString.NilZero.string_of_uint.
    destruct (N.to_hex_uint (Z.to_N u)) eqn:E; try reflexivity;
      rewrite <- E; now apply all_chars_hexadecimal. }
  unfold BatchId.valid, Uuid.str, Uuid.slice in *. cbv zeta.
  rewrite !all_chars_app.
  rewrite !all_chars_substring by exact Hhex.
  reflexivity.
Qed.

Lemma length_uuid_str (u : Z) : String.length (Uuid.str u) = 36%nat.
Proof.
  assert (Hlen : (32 <= String.length (Uuid.hex32 u))%nat).
  { unfold Uuid.hex32. rewrite length_zfill. lia. }
  unfold Uuid.str, Uuid.slice. cbv zeta.
  rewrite !length_append.
  rewrite !length_substring by (cbn [Nat.sub]; lia).
  reflexivity.
Qed.

(** X6: the identifiers a run sends to the service are made of letters,
    digits, hyphens and underscores only: the job identifier, which is
    51 characters long whatever the random bytes were (the 15 of
    [distributed_rl_] and the 36 of the UUID text), and the identifier
    of every task. *)
Theorem identifiers_are_plain
  (cfg : NOTEBOOK_CONFIG) (hp : hyperparameters) (urandom : list Byte.byte) :
  List.length urandom = 16%nat ->
  exists job_id ts,
    launch cfg hp urandom []
    = (Ok job_id,
       [job_add {| job_param_id := job_id;
                   pool_info := {| pool_id := batch_pool_name cfg |} |};
        task_add_collection job_id ts]) /\
    String.length job_id = 51%nat /\
    String.substring 0 15 job_id = "distributed_rl_" /\
    BatchId.valid job_id = true /\
    forallb (fun t => BatchId.valid (id t)) ts = true.
Proof.
  intros Hlen.
  exists (job_id_of urandom), (tasks cfg hp (job_id_of urandom)).
  split; [apply (launch_run cfg hp urandom Hlen)|].
  split; [|split; [|split]].
  - unfold job_id_of. now rewrite length_append, length_uuid_str.
  - unfold job_id_of. apply (substring_prefix "distributed_rl_").
  - unfold job_id_of, BatchId.valid.
    rewrite all_chars_app. apply andb_true_iff. split; [reflexivity|].
    apply valid_uuid_str.
  - apply forallb_forall. intros t Ht.
    apply in_tasks in Ht as [->|[i [_ ->]]]; [reflexivity|].
    cbn [id agent]. unfold BatchId.valid.
    rewrite all_chars_app. apply andb_true_iff. split; [reflexivity|].
    now apply all_chars_str_int.
Qed.

Lemma identifiers_are_plain_witness :
  exists job_id ts,
    launch (Sample.cfg 3) notebook_hyperparameters Sample.urandom []
    = (Ok job_id,
       [job_add {| job_param_id := job_id;
                   pool_info := {| pool_id := "pool" |} |};
        task_add_collection job_id ts]) /\
    String.length job_id = 51%nat /\
    BatchId.valid job_id = true.
Proof.
  destruct (identifiers_are_plain
              (Sample.cfg 3) notebook_hyperparameters Sample.urandom eq_refl)
    as [job_id [ts [Hrun [Hlen [_ [Hvalid _]]]]]].
  exists job_id, ts. split; [exact Hrun|]. split; [exact Hlen|exact Hvalid].
Defined.

End IdentifierFacts.

(* ================================================================== *)
(** * Six decimals: what the agents are told of the epsilon numbers *)
(* ================================================================== *)

Section SixDecimalFacts.
Import Py Decode.

Lemma round_half_even_bound (num den : Z) :
  0 <= num -> 0 < den ->
  0 <= round_half_even num den /\
  2 * Z.abs (round_half_even num den * den - num) <= den.
Proof.
  intros Hn Hd. unfold round_half_even.
  pose proof (Z.div_mod num den ltac:(lia)) as Hdm.
  pose proof (Z.mod_pos_bound num den Hd) as Hm.
  pose proof (Z.div_pos num den Hn Hd) as Hq.
  destruct (Z.compare_spec (2 * (num mod den)) den) as [E|E|E];
    [destruct (Z.even (num / den))| |]; split; nia.
Qed.

Lemma of_uint_acc_lower (l : Decimal.uint) (acc : positive) :
  Z.pos acc * 10 ^ Z.of_nat (Decimal.nb_digits l)
  <= Z.pos (Pos.of_uint_acc l acc).
Proof.
  revert acc.
  induction l as [|l IH|l IH|l IH|l IH|l IH|l IH|l IH|l IH|l IH|l IH];
    intros acc; cbn [Pos.of_uint_acc Decimal.nb_digits];
    [rewrite Z.pow_0_r; lia|..];
    rewrite Nat2Z.inj_succ, Z.pow_succ_r by lia;
    (eapply Z.le_trans; [|apply IH]);
    assert (0 < 10 ^ Z.of_nat (Decimal.nb_digits l)) by (apply Z.pow_pos_nonneg; lia);
    nia.
Qed.

Lemma to_uint_head (p : positive) :
  Decimal.nzhead (Pos.to_uint p) = Pos.to_uint p.
Proof.
  pose proof (DecimalPos.Unsigned.to_of (Pos.to_uint p)) as H.
  rewrite DecimalPos.Unsigned.of_to in H. cbn [N.to_uint] in H.
  unfold Decimal.unorm in H.
  destruct (Decimal.nzhead (Pos.to_uint p)) eqn:E; try (now symmetry).
  exfalso. now apply (DecimalPos.Unsigned.to_uint_nonzero p).
Qed.

Lemma nb_digits_to_uint (p : positive) (k : nat) :
  Z.pos p < 10 ^ Z.of_nat k -> (Decimal.nb_digits (Pos.to_uint p) <= k)%nat.
Proof.
  intros Hp.
  pose proof (DecimalPos.Unsigned.of_to p) as Hof.
  pose proof (to_uint_head p) as Hhd.
  destruct (Pos.to_uint p) as [|l|l|l|l|l|l|l|l|l|l] eqn:E;
    [cbn; lia| | | | | | | | | |];
    [exfalso; cbn [Decimal.nzhead] in Hhd;
     now apply (DecimalFacts.nzhead_nonzero l l)|..];
    cbn [Pos.of_uint] in Hof; injection Hof as Hof;
    cbn [Decimal.nb_digits];
    match goal with
    | H : Pos.of_uint_acc l ?a = p |- _ =>
        pose proof (of_uint_acc_lower l a) as Hlow; rewrite H in Hlow
    end;
    assert (Hlt : 10 ^ Z.of_nat (Decimal.nb_digits l) < 10 ^ Z.of_nat k)
      by (assert (0 < 10 ^ Z.of_nat (Decimal.nb_digits l))
            by (apply Z.pow_pos_nonneg; lia); nia);
    apply Z.pow_lt_mono_r_iff in Hlt; lia.
Qed.

Lemma length_string_of_uint (d : Decimal.uint) :
  String.length (DecimalString.NilEmpty.string_of_uint d)
  = Decimal.nb_digits d.
Proof. induction d; cbn; congruence. Qed.

Lemma str_int_digits (r : Z) :
  0 <= r ->
  str_int r = DecimalString.NilEmpty.string_of_uint (digits_of r)
  /\ digits_of r <> Decimal.Nil
  /\ Z.of_N (Pos.of_uint (digits_of r)) = r.
Proof.
  intros Hr. destruct r as [|p|p]; [repeat split; discriminate| |lia].
  cbn [digits_of]. unfold str_int. cbn [Z.to_int].
  unfold DecimalString.NilZero.string_of_int,
    DecimalString.NilZero.string_of_uint.
  pose proof (DecimalPos.Unsigned.to_uint_nonnil p) as Hnil.
  split; [|split].
  - now destruct (Pos.to_uint p).
  - exact Hnil.
  - now rewrite DecimalPos.Unsigned.of_to.
Qed.

Lemma length_str_int_below (r : Z) (k : nat) :
  0 <= r < 10 ^ Z.of_nat k -> (1 <= k)%nat ->
  (String.length (str_int r) <= k)%nat.
Proof.
  intros Hr Hk. destruct (str_int_digits r ltac:(lia)) as [-> _].
  rewrite length_string_of_uint.
  destruct r as [|p|p]; [cbn; lia| |lia].
  cbn [digits_of]. apply nb_digits_to_uint. lia.
Qed.

Lemma uint_of_string_zeros (k : nat) (t : string) :
  DecimalString.NilEmpty.uint_of_string (zeros k ++ t)
  = option_map (Nat.iter k Decimal.D0)
               (DecimalString.NilEmpty.uint_of_string t).
Proof.
  induction k as [|k IH]; cbn [zeros append Nat.iter].
  - now destruct (DecimalString.NilEmpty.uint_of_string t).
  - cbn [DecimalString.NilEmpty.uint_of_string]. rewrite IH.
    now destruct (DecimalString.NilEmpty.uint_of_string t).
Qed.

Lemma of_uint_zeros (k : nat) (d : Decimal.uint) :
  Pos.of_uint (Nat.iter k Decimal.D0 d) = Pos.of_uint d.
Proof. induction k as [|k IH]; [reflexivity|]. cbn. exact IH. Qed.

(** A decimal padded with zeros on the left still reads as its int. *)
Lemma int_value_zfill (w : nat) (r : Z) :
  0 <= r -> int_value (zfill w (str_int r)) = Some r.
Proof.
  intros Hr. destruct (str_int_digits r Hr) as (-> & Hnil & Hval).
  unfold zfill, int_value.
  set (k := (w - _)%nat). clearbody k.
  assert (Hu : DecimalString.NilZero.int_of_string
                 (zeros k ++ DecimalString.NilEmpty.string_of_uint (digits_of r))
               = Some (Decimal.Pos (Nat.iter k Decimal.D0 (digits_of r)))).
  { pose proof (uint_of_string_zeros k
                  (DecimalString.NilEmpty.string_of_uint (digits_of r))) as Hz.
    rewrite DecimalString.NilEmpty.usu in Hz. cbn [option_map] in Hz.
    unfold DecimalString.NilZero.int_of_string,
      DecimalString.NilZero.uint_of_string.
    destruct k as [|k].
    - cbn [zeros append Nat.iter] in *.
      destruct (digits_of r); try (now destruct Hnil);
        cbn [DecimalString.NilEmpty.string_of_uint] in *;
        cbn [Ascii.eqb Bool.eqb]; now rewrite Hz.
    - cbn [zeros append] in *. cbn [Ascii.eqb Bool.eqb]. now rewrite Hz. }
  rewrite Hu. cbn [option_map Z.of_int]. unfold Z.of_uint.
  now rewrite of_uint_zeros, Hval.
Qed.

Lemma at_point_app (a b : string) :
  all_chars (fun c => negb (Ascii.eqb c ".")) a = true ->
  at_point (a ++ String "." b) = Some (a, b).
Proof.
  induction a as [|c a IH]; intros H; cbn [append at_point].
  - reflexivity.
  - rewrite all_chars_cons in H. apply andb_true_iff in H as [Hc Ha].
    apply negb_true_iff in Hc. now rewrite Hc, (IH Ha).
Qed.

(** The six-decimal text of [n] millionths denotes [n] millionths. *)
Lemma fixed6_value_fixed6 (n : Z) :
  0 <= n -> fixed6_value (fixed6 n) = Some n.
Proof.
  intros Hn. unfold fixed6_value, fixed6.
  assert (Hq : 0 <= n / 1000000) by (apply Z.div_pos; lia).
  assert (Hr : 0 <= n mod 1000000 < 1000000)
    by (apply Z.mod_pos_bound; lia).
  change ("." ++ zfill 6 (str_int (n mod 1000000)))
    with (String "." (zfill 6 (str_int (n mod 1000000)))).
  rewrite at_point_app by (now apply all_chars_str_int_nonneg).
  rewrite length_zfill.
  pose proof (length_str_int_below (n mod 1000000) 6 ltac:(cbn; lia)
                ltac:(lia)) as Hlen.
  replace (Nat.max 6 (String.length (str_int (n mod 1000000))))
    with 6%nat by lia.
  cbn [Nat.eqb].
  rewrite int_value_str_int, int_value_zfill by lia.
  f_equal. pose proof (Z.div_mod n 1000000 ltac:(lia)). lia.
Qed.

Lemma millionths_bound (m : positive) (e : Z) :
  0 <= millionths m e /\
  (0 <= e -> millionths m e = Z.pos m * 2 ^ e * 1000000) /\
  (e < 0 ->
   2 * Z.abs (millionths m e * 2 ^ (- e) - Z.pos m * 1000000) <= 2 ^ (- e)).
Proof.
  unfold millionths. destruct (Z.leb_spec 0 e) as [He|He].
  - assert (0 < 2 ^ e) by (apply Z.pow_pos_nonneg; lia).
    split; [nia|]. split; [reflexivity|lia].
  - assert (Hden : 0 < 2 ^ (- e)) by (apply Z.pow_pos_nonneg; lia).
    destruct (round_half_even_bound (Z.pos m * 1000000) (2 ^ (- e))
                ltac:(lia) Hden) as [H0 Hb].
    split; [exact H0|]. split; [lia|]. intros _. exact Hb.
Qed.

(** X7: the two epsilon numbers reach the agents as six-decimal texts, and
    such a text denotes the number nearest to the float among the
    multiples of a millionth: for the float [m * 2^e] (of either sign)
    under either key the argument is the sign followed by a text that
    reads as [N] millionths, with [N] exact when [e >= 0] and
    [|N - m * 2^e * 10^6| <= 1/2] otherwise. *)
Theorem epsilon_reaches_agents_within_half_millionth
  (hp : Launcher.hyperparameters) (job_id key : string)
  (sg : bool) (m : positive) (e : Z) :
  CommandLine.no_space job_id = true ->
  In (key, S754_finite sg m e)
     [("per_iter_epsilon_reduction", Launcher.per_iter_epsilon_reduction hp);
      ("min_epsilon", Launcher.min_epsilon hp)] ->
  exists cmd t N,
    Launcher.agent_cmd_line hp job_id = Ok cmd /\
    CommandLine.arg cmd key = Some (sign_str sg ++ t) /\
    fixed6_value t = Some N /\
    0 <= N /\
    (0 <= e -> N = Z.pos m * 2 ^ e * 1000000) /\
    (e < 0 -> 2 * Z.abs (N * 2 ^ (- e) - Z.pos m * 1000000) <= 2 ^ (- e)).
Proof.
  intros Hj Hin.
  destruct (millionths_bound m e) as (H0 & Hexact & Hnear).
  exists (Launched.agent_line hp job_id), (fixed6 (millionths m e)),
    (millionths m e).
  split; [apply agent_cmd_line_eq|].
  split.
  { unfold CommandLine.arg. rewrite (args_agent_line_front hp job_id Hj).
    destruct Hin as [Hin|[Hin|[]]]; injection Hin as <- E;
      rewrite E; reflexivity. }
  split; [now apply fixed6_value_fixed6|].
  split; [exact H0|]. split; assumption.
Qed.

Lemma epsilon_reaches_agents_within_half_millionth_witness :
  exists cmd t,
    Launcher.agent_cmd_line Launcher.notebook_hyperparameters
                            (Launched.job_id_of Sample.urandom) = Ok cmd /\
    CommandLine.arg cmd "per_iter_epsilon_reduction" = Some t /\
    fixed6_value t = Some 3000.
Proof.
  destruct (epsilon_reaches_agents_within_half_millionth
              Launcher.notebook_hyperparameters
              (Launched.job_id_of Sample.urandom)
              "per_iter_epsilon_reduction" false 6917529027641082 (-61)
              eq_refl (or_introl eq_refl))
    as (cmd & t & N & Hcmd & Harg & Hval & _ & _ & Hnear).
  exists cmd, t. split; [exact Hcmd|]. split; [exact Harg|].
  rewrite Hval. f_equal.
  specialize (Hnear ltac:(lia)).
  change (2 ^ (- -61)) with 2305843009213693952 in Hnear. lia.
Defined.

(** X8: an epsilon reduction of at most half a millionth is lost on the way:
    for a positive float [m * 2^e] with [2 * m * 10^6 <= 2^(-e)] the
    agents are told [per_iter_epsilon_reduction=0.000000]. *)
Theorem tiny_epsilon_reduction_reaches_agents_as_zero
  (hp : Launcher.hyperparameters) (job_id : string) (m : positive) (e : Z) :
  CommandLine.no_space job_id = true ->
  Launcher.per_iter_epsilon_reduction hp = S754_finite false m e ->
  e < 0 ->
  2 * (Z.pos m * 1000000) <= 2 ^ (- e) ->
  exists cmd,
    Launcher.agent_cmd_line hp job_id = Ok cmd /\
    CommandLine.arg cmd "per_iter_epsilon_reduction" = Some "0.000000".
Proof.
  intros Hj Hx He Hsmall.
  exists (Launched.agent_line hp job_id).
  split; [apply agent_cmd_line_eq|].
  unfold CommandLine.arg. rewrite (args_agent_line_front hp job_id Hj).
  cbn [app CommandLine.assoc String.eqb Ascii.eqb Bool.eqb].
  rewrite Hx. cbn [format_f sign_str append]. do 2 f_equal.
  assert (Hz : millionths m e = 0).
  { unfold millionths. destruct (Z.leb_spec 0 e); [lia|].
    unfold round_half_even.
    assert (Hden : 0 < 2 ^ (- e)) by (apply Z.pow_pos_nonneg; lia).
    rewrite Z.div_small, Z.mod_small by lia.
    destruct (Z.compare_spec (2 * (Z.pos m * 1000000)) (2 ^ (- e)));
      [reflexivity|reflexivity|lia]. }
  now rewrite Hz.
Qed.

Lemma tiny_epsilon_reduction_reaches_agents_as_zero_witness :
  exists cmd,
    Launcher.agent_cmd_line
      {| Launcher.batch_update_frequency := 300;
         Launcher.max_epoch_runtime_sec := 30;
         Launcher.per_iter_epsilon_reduction :=
           S754_finite false 7555786372591432 (-76);
         Launcher.min_epsilon := S754_finite false 7205759403792794 (-56);
         Launcher.batch_size := 32;
         Launcher.replay_memory_size := 2000;
         Launcher.weights_path := "Z:\data\pretrain_model_weights.h5";
         Launcher.train_conv_layers := "false" |}
      (Launched.job_id_of Sample.urandom) = Ok cmd /\
    CommandLine.arg cmd "per_iter_epsilon_reduction" = Some "0.000000".
Proof.
  apply (tiny_epsilon_reduction_reaches_agents_as_zero _ _
           7555786372591432 (-76)); [reflexivity|reflexivity|lia|].
  vm_compute. discriminate.
Defined.

End SixDecimalFacts.

(* ================================================================== *)
(** * The job identifier names its UUID *)
(* ================================================================== *)

Section JobUuidFacts.
Import Py Launcher Launched Decode.

Lemma from_bytes_bound (bs : list Byte.byte) (acc : Z) :
  0 <= acc ->
  acc * 256 ^ Z.of_nat (List.length bs)
  <= fold_left (fun a b => a * 256 + Z.of_N (Byte.to_N b)) bs acc
  < (acc + 1) * 256 ^ Z.of_nat (List.length bs).
Proof.
  revert acc. induction bs as [|b bs IH]; intros acc Hacc.
  - cbn. lia.
  - cbn [fold_left List.length]. rewrite Nat2Z.inj_succ, Z.pow_succ_r by lia.
    pose proof (Byte.to_N_bounded b) as Hb.
    assert (Hb' : 0 <= Z.of_N (Byte.to_N b) <= 255) by lia.
    specialize (IH (acc * 256 + Z.of_N (Byte.to_N b)) ltac:(lia)).
    assert (0 < 256 ^ Z.of_nat (List.length bs))
      by (apply Z.pow_pos_nonneg; lia).
    nia.
Qed.

Lemma testbit_above (x : Z) (k n : Z) :
  0 <= x < 2 ^ k -> k <= n -> Z.testbit x n = false.
Proof.
  intros Hx Hn. destruct (Z.eq_dec x 0) as [->|Hx0].
  - apply Z.bits_0.
  - apply Z.bits_above_log2; [lia|].
    assert (Z.log2 x < k) by (apply Z.log2_lt_pow2; lia). lia.
Qed.

Lemma below_pow2 (x k : Z) :
  0 <= k -> 0 <= x ->
  (forall n, k <= n -> Z.testbit x n = false) -> x < 2 ^ k.
Proof.
  intros Hk Hx Hbits.
  assert (E : x = x mod 2 ^ k).
  { apply Z.bits_inj'. intros n Hn.
    destruct (Z.lt_ge_cases n k) as [Hlt|Hge].
    - now rewrite Z.mod_pow2_bits_low.
    - rewrite Z.mod_pow2_bits_high by lia. now apply Hbits. }
  rewrite E. apply Z.mod_pos_bound. apply Z.pow_pos_nonneg; lia.
Qed.

(** The integer of a UUID has 128 bits. *)
Lemma uuid_int_bound (urandom : list Byte.byte) :
  List.length urandom = 16%nat -> 0 <= uuid_int urandom < 2 ^ 128.
Proof.
  intros Hlen.
  assert (Hx : 0 <= Uuid.from_bytes urandom < 2 ^ 128).
  { pose proof (from_bytes_bound urandom 0 ltac:(lia)) as H.
    rewrite Hlen in H. unfold Uuid.from_bytes.
    change (256 ^ Z.of_nat 16) with (2 ^ 128) in H. lia. }
  unfold uuid_int. set (x := Uuid.from_bytes urandom) in *.
  assert (Hnn : 0 <= Z.lor
                     (Z.land
                        (Z.lor (Z.land x (Z.lnot (Z.shiftl 49152 48)))
                               (Z.shiftl 32768 48))
                        (Z.lnot (Z.shiftl 61440 64)))
                     (Z.shiftl 4 76)).
  { apply Z.lor_nonneg. split; [|cbn; lia].
    apply Z.land_nonneg. left. apply Z.lor_nonneg. split; [|cbn; lia].
    apply Z.land_nonneg. left. lia. }
  split; [exact Hnn|].
  apply below_pow2; [lia|exact Hnn|]. intros n Hn.
  rewrite Z.lor_spec, Z.land_spec, Z.lor_spec, Z.land_spec.
  rewrite (testbit_above x 128 n Hx Hn).
  rewrite (testbit_above (Z.shiftl 32768 48) 128 n) by (cbn; lia).
  rewrite (testbit_above (Z.shiftl 4 76) 128 n) by (cbn; lia).
  reflexivity.
Qed.

Lemma of_hex_uint_acc_lower (l : Hexadecimal.uint) (acc : positive) :
  Z.pos acc * 16 ^ Z.of_nat (Hexadecimal.nb_digits l)
  <= Z.pos (Pos.of_hex_uint_acc l acc).
Proof.
  revert acc.
  induction l; intros acc;
    cbn [Pos.of_hex_uint_acc Hexadecimal.nb_digits];
    [rewrite Z.pow_0_r; lia|..];
    rewrite Nat2Z.inj_succ, Z.pow_succ_r by lia;
    (eapply Z.le_trans; [|apply IHl]);
    assert (0 < 16 ^ Z.of_nat (Hexadecimal.nb_digits l))
      by (apply Z.pow_pos_nonneg; lia);
    nia.
Qed.

Lemma to_hex_uint_head (p : positive) :
  Hexadecimal.nzhead (Pos.to_hex_uint p) = Pos.to_hex_uint p.
Proof.
  pose proof (HexadecimalPos.Unsigned.to_of (Pos.to_hex_uint p)) as H.
  rewrite HexadecimalPos.Unsigned.of_to in H. cbn [N.to_hex_uint] in H.
  unfold Hexadecimal.unorm in H.
  destruct (Hexadecimal.nzhead (Pos.to_hex_uint p)) eqn:E;
    try (now symmetry).
  exfalso. now apply (HexadecimalPos.Unsigned.to_uint_nonzero p).
Qed.

Lemma nb_digits_to_hex_uint (p : positive) (k : nat) :
  Z.pos p < 16 ^ Z.of_nat k ->
  (Hexadecimal.nb_digits (Pos.to_hex_uint p) <= k)%nat.
Proof.
  intros Hp.
  pose proof (HexadecimalPos.Unsigned.of_to p) as Hof.
  pose proof (to_hex_uint_head p) as Hhd.
  destruct (Pos.to_hex_uint p) as [|l|l|l|l|l|l|l|l|l|l|l|l|l|l|l|l] eqn:E;
    [cbn; lia| | | | | | | | | | | | | | | |];
    [exfalso; cbn [Hexadecimal.nzhead] in Hhd;
     now apply (HexadecimalFacts.nzhead_nonzero l l)|..];
    cbn [Pos.of_hex_uint] in Hof; injection Hof as Hof;
    cbn [Hexadecimal.nb_digits];
    match goal with
    | H : Pos.of_hex_uint_acc l ?a = p |- _ =>
        pose proof (of_hex_uint_acc_lower l a) as Hlow; rewrite H in Hlow
    end;
    assert (Hlt : 16 ^ Z.of_nat (Hexadecimal.nb_digits l) < 16 ^ Z.of_nat k)
      by (assert (0 < 16 ^ Z.of_nat (Hexadecimal.nb_digits l))
            by (apply Z.pow_pos_nonneg; lia); nia);
    apply Z.pow_lt_mono_r_iff in Hlt; lia.
Qed.

Lemma length_hex_string_of_uint (d : Hexadecimal.uint) :
  String.length (HexadecimalString.NilEmpty.string_of_uint d)
  = Hexadecimal.nb_digits d.
Proof. induction d; cbn; congruence. Qed.

Lemma hex_digits_nonnil (u : Z) :
  HexadecimalString.NilZero.string_of_uint (N.to_hex_uint (Z.to_N u))
  = HexadecimalString.NilEmpty.string_of_uint (N.to_hex_uint (Z.to_N u))
  /\ N.to_hex_uint (Z.to_N u) <> Hexadecimal.Nil.
Proof.
  destruct (Z.to_N u) as [|p]; [split; [reflexivity|discriminate]|].
  cbn [N.to_hex_uint].
  pose proof (HexadecimalPos.Unsigned.to_uint_nonnil p) as Hnil.
  split; [|exact Hnil].
  unfold HexadecimalString.NilZero.string_of_uint.
  now destruct (Pos.to_hex_uint p).
Qed.

Lemma length_hex32 (u : Z) :
  0 <= u < 2 ^ 128 -> String.length (Uuid.hex32 u) = 32%nat.
Proof.
  intros Hu. unfold Uuid.hex32. rewrite length_zfill.
  destruct (hex_digits_nonnil u) as [-> _].
  rewrite length_hex_string_of_uint.
  destruct (Z.to_N u) as [|p] eqn:E; [reflexivity|].
  cbn [N.to_hex_uint].
  pose proof (nb_digits_to_hex_uint p 32) as H.
  change (16 ^ Z.of_nat 32) with (2 ^ 128) in H.
  assert (Z.pos p = u) by lia. lia.
Qed.

Lemma hex_uint_of_string_zeros (k : nat) (t : string) :
  HexadecimalString.NilEmpty.uint_of_string (zeros k ++ t)
  = option_map (Nat.iter k Hexadecimal.D0)
               (HexadecimalString.NilEmpty.uint_of_string t).
Proof.
  induction k as [|k IH]; cbn [zeros append Nat.iter].
  - now destruct (HexadecimalString.NilEmpty.uint_of_string t).
  - cbn [HexadecimalString.NilEmpty.uint_of_string]. rewrite IH.
    now destruct (HexadecimalString.NilEmpty.uint_of_string t).
Qed.

Lemma of_hex_uint_zeros (k : nat) (d : Hexadecimal.uint) :
  Pos.of_hex_uint (Nat.iter k Hexadecimal.D0 d) = Pos.of_hex_uint d.
Proof. induction k as [|k IH]; [reflexivity|]. cbn. exact IH. Qed.

(** The 32 hexadecimal digits of an int read back as the int. *)
Lemma hex_value_hex32 (u : Z) : 0 <= u -> hex_value (Uuid.hex32 u) = Some u.
Proof.
  intros Hu. unfold hex_value, Uuid.hex32, zfill.
  destruct (hex_digits_nonnil u) as [-> _].
  rewrite hex_uint_of_string_zeros, HexadecimalString.NilEmpty.usu.
  cbn [option_map]. rewrite of_hex_uint_zeros.
  change (Pos.of_hex_uint (N.to_hex_uint (Z.to_N u)))
    with (N.of_hex_uint (N.to_hex_uint (Z.to_N u))).
  rewrite HexadecimalN.Unsigned.of_to. f_equal. lia.
Qed.

Lemma substring_consecutive (s : string) (n m k : nat) :
  (n + m <= String.length s)%nat ->
  String.substring n m s ++ String.substring (n + m) k s
  = String.substring n (m + k) s.
Proof.
  revert n m. induction s as [|c s IH]; intros n m H; cbn in H.
  - assert (n = 0%nat) by lia. assert (m = 0%nat) by lia. subst.
    now destruct k.
  - destruct n as [|n].
    + destruct m as [|m]; cbn [Nat.add String.substring append].
      * reflexivity.
      * f_equal. apply (IH 0%nat m). lia.
    + cbn [Nat.add String.substring]. apply IH. lia.
Qed.

Lemma substring_all (s : string) :
  String.substring 0 (String.length s) s = s.
Proof. induction s as [|c s IH]; cbn; [reflexivity | now rewrite IH]. Qed.

Lemma substring_behind (p s : string) :
  String.substring (String.length p) (String.length s) (p ++ s) = s.
Proof.
  induction p as [|c p IH]; cbn [String.length append].
  - apply substring_all.
  - cbn [String.substring]. exact IH.
Qed.

Lemma without_hyphens_app (a b : string) :
  without_hyphens (a ++ b) = without_hyphens a ++ without_hyphens b.
Proof.
  induction a as [|c a IH]; [reflexivity|].
  cbn [append without_hyphens]. rewrite IH.
  now destruct (Ascii.eqb c "-").
Qed.

Lemma without_hyphens_plain (s : string) :
  all_chars (fun c => negb (Ascii.eqb c "-")) s = true ->
  without_hyphens s = s.
Proof.
  induction s as [|c s IH]; intros H; [reflexivity|].
  rewrite all_chars_cons in H. apply andb_true_iff in H as [Hc Hs].
  apply negb_true_iff in Hc. cbn [without_hyphens].
  now rewrite Hc, (IH Hs).
Qed.

Lemma hex32_no_hyphen (u : Z) :
  all_chars (fun c => negb (Ascii.eqb c "-")) (Uuid.hex32 u) = true.
Proof.
  unfold Uuid.hex32. apply all_chars_zfill; [reflexivity|].
  destruct (hex_digits_nonnil u) as [-> _].
  now apply all_chars_hexadecimal.
Qed.

(** Dropping the hyphens of the UUID text gives the 32 digits back. *)
Lemma without_hyphens_uuid_str (u : Z) :
  0 <= u < 2 ^ 128 -> without_hyphens (Uuid.str u) = Uuid.hex32 u.
Proof.
  intros Hu. pose proof (length_hex32 u Hu) as Hlen.
  pose proof (hex32_no_hyphen u) as Hplain.
  unfold Uuid.str, Uuid.slice. cbv zeta. cbn [Nat.sub].
  rewrite !without_hyphens_app. cbn [without_hyphens Ascii.eqb Bool.eqb].
  rewrite !without_hyphens_plain by (now apply all_chars_substring).
  cbn [append].
  rewrite (substring_consecutive _ 16 4 12) by lia.
  rewrite (substring_consecutive _ 12 4 16) by lia.
  rewrite (substring_consecutive _ 8 4 20) by lia.
  rewrite (substring_consecutive _ 0 8 24) by lia.
  cbn [Nat.add]. rewrite <- Hlen at 1. apply substring_all.
Qed.

(** X9: the notebook makes the job name unique by a fresh UUID, and the name
    keeps the UUID whole: the 128-bit integer of the UUID can be read
    back from the job identifier, so two runs get the same job
    identifier only when they drew the same UUID. *)
Theorem job_id_names_its_uuid (urandom : list Byte.byte) :
  List.length urandom = 16%nat ->
  exists u job_id,
    Uuid.uuid4 urandom = Ok u /\
    make_job_id urandom = Ok job_id /\
    0 <= u < 2 ^ 128 /\
    job_uuid job_id = Some u /\
    (forall urandom',
        List.length urandom' = 16%nat ->
        make_job_id urandom' = Ok job_id ->
        Uuid.uuid4 urandom' = Ok u).
Proof.
  intros Hlen.
  assert (Hback : forall bs, List.length bs = 16%nat ->
                             job_uuid (job_id_of bs) = Some (uuid_int bs)).
  { intros bs Hbs. pose proof (uuid_int_bound bs Hbs) as Hu.
    unfold job_uuid, job_id_of.
    rewrite (substring_prefix "distributed_rl_"), String.eqb_refl.
    pose proof (substring_behind "distributed_rl_" (Uuid.str (uuid_int bs)))
      as Hsub.
    rewrite length_uuid_str in Hsub. cbn [String.length] in Hsub.
    rewrite Hsub, without_hyphens_uuid_str by exact Hu.
    apply hex_value_hex32. lia. }
  destruct (make_job_id_eq urandom Hlen) as [Hu Hj].
  exists (uuid_int urandom), (job_id_of urandom).
  split; [exact Hu|]. split; [exact Hj|].
  split; [now apply uuid_int_bound|].
  split; [now apply Hback|].
  intros urandom' Hlen' Hj'.
  destruct (make_job_id_eq urandom' Hlen') as [Hu' Hj''].
  rewrite Hj'' in Hj'. rewrite Hu'. f_equal.
  pose proof (Hback urandom' Hlen') as H1.
  pose proof (Hback urandom Hlen) as H2.
  congruence.
Qed.

Lemma job_id_names_its_uuid_witness :
  exists u job_id,
    Uuid.uuid4 Sample.urandom = Ok u /\
    make_job_id Sample.urandom = Ok job_id /\
    job_uuid job_id = Some u.
Proof.
  destruct (job_id_names_its_uuid Sample.urandom eq_refl)
    as (u & job_id & Hu & Hj & _ & Hback & _).
  exists u, job_id. split; [exact Hu|]. split; [exact Hj|exact Hback].
Defined.

Lemma testbit_pow2 (m n : Z) :
  0 <= m -> Z.testbit (2 ^ m) n = (m =? n).
Proof.
  intros Hm. now apply Z.pow2_bits_eqb.
Qed.

(** X10: [uuid4] writes six bits and no other: bits 62 and 63 (the variant)
    and bits 76 to 79 (the version).  Every other bit of the UUID is
    the bit the random bytes gave, so a job identifier carries 122
    random bits. *)
Theorem uuid4_keeps_the_random_bits (urandom : list Byte.byte) (n : Z) :
  List.length urandom = 16%nat ->
  0 <= n ->
  ~ In n [62; 63; 76; 77; 78; 79] ->
  exists u,
    Uuid.uuid4 urandom = Ok u /\
    Z.testbit u n = Z.testbit (Uuid.from_bytes urandom) n.
Proof.
  intros Hlen Hn Hout. exists (uuid_int urandom).
  split; [apply (make_job_id_eq urandom Hlen)|].
  unfold uuid_int. set (x := Uuid.from_bytes urandom).
  change (Z.shiftl 49152 48) with (Z.lor (2 ^ 62) (2 ^ 63)).
  change (Z.shiftl 32768 48) with (2 ^ 63).
  change (Z.shiftl 61440 64)
    with (Z.lor (2 ^ 76) (Z.lor (2 ^ 77) (Z.lor (2 ^ 78) (2 ^ 79)))).
  change (Z.shiftl 4 76) with (2 ^ 78).
  repeat (rewrite ?Z.lor_spec, ?Z.land_spec, ?Z.lnot_spec,
            ?testbit_pow2 by lia).
  cbn [In] in Hout.
  destruct (Z.eqb_spec 62 n); [lia|].
  destruct (Z.eqb_spec 63 n); [lia|].
  destruct (Z.eqb_spec 76 n); [lia|].
  destruct (Z.eqb_spec 77 n); [lia|].
  destruct (Z.eqb_spec 78 n); [lia|].
  destruct (Z.eqb_spec 79 n); [lia|].
  cbn. now rewrite !andb_true_r, !orb_false_r.
Qed.

Lemma uuid4_keeps_the_random_bits_witness :
  exists u,
    Uuid.uuid4 Sample.urandom = Ok u /\
    Z.testbit u 100 = Z.testbit (Uuid.from_bytes Sample.urandom) 100.
Proof.
  apply (uuid4_keeps_the_random_bits Sample.urandom 100);
    [reflexivity | lia |].
  cbn [In]. lia.
Defined.

End JobUuidFacts.

(* ================================================================== *)
(** * What of the configuration reaches the tasks *)
(* ================================================================== *)

Section ConfigurationFacts.
Import Py Launcher Launched.

(** X11: Of [notebook_config.json] only the job user and the pool size enter
    the tasks: two configurations that agree on these two build the same
    task list for a job, so the account name, the account key, the
    account URL and the pool name are on no command line and in no other
    field of a task. *)
Theorem tasks_ignore_the_account
  (cfg cfg' : NOTEBOOK_CONFIG) (hp : hyperparameters) (job_id : string) :
  batch_job_user_name cfg = batch_job_user_name cfg' ->
  batch_pool_size cfg = batch_pool_size cfg' ->
  exists ts,
    build_tasks cfg hp job_id = Ok ts /\
    build_tasks cfg' hp job_id = Ok ts /\
    List.length ts = S (Z.to_nat (batch_pool_size cfg - 1)).
Proof.
  intros Huser Hsize. exists (tasks cfg hp job_id).
  split; [apply build_tasks_eq|]. split.
  - rewrite build_tasks_eq. unfold tasks, trainer, agents, agent.
    now rewrite Huser, Hsize.
  - unfold tasks. cbn [List.length]. f_equal.
    unfold agents, range. rewrite !length_map, length_seq. f_equal. lia.
Qed.

Lemma tasks_ignore_the_account_witness :
  exists ts,
    build_tasks (Sample.cfg 3) notebook_hyperparameters "distributed_rl_x"
    = Ok ts /\
    build_tasks {| batch_account_name := "another";
                   batch_account_key := "secret";
                   batch_account_url := "https://another.example";
                   batch_pool_name := "elsewhere";
                   batch_job_user_name := "user";
                   batch_pool_size := 3 |}
                notebook_hyperparameters "distributed_rl_x"
    = Ok ts /\
    List.length ts = 3%nat.
Proof.
  apply (tasks_ignore_the_account
           (Sample.cfg 3)
           {| batch_account_name := "another";
              batch_account_key := "secret";
              batch_account_url := "https://another.example";
              batch_pool_name := "elsewhere";
              batch_job_user_name := "user";
              batch_pool_size := 3 |}
           notebook_hyperparameters "distributed_rl_x");
    reflexivity.
Defined.

End ConfigurationFacts.

(* ================================================================== *)
(** * The job identifier of a launched job *)
(* ================================================================== *)

Section JobIdentifierClaim.
Import Py Launcher Launched Decode.

Lemma from_bytes_snoc (bs : list Byte.byte) (b : Byte.byte) :
  Uuid.from_bytes (bs ++ [b])
  = Uuid.from_bytes bs * 256 + Z.of_N (Byte.to_N b).
Proof. unfold Uuid.from_bytes. now rewrite fold_left_app. Qed.

(** The integer of the bytes holds every byte, the first one highest. *)
Lemma from_bytes_byte (bs : list Byte.byte) (i : nat) :
  (i < List.length bs)%nat ->
  (Uuid.from_bytes bs / 256 ^ Z.of_nat (List.length bs - 1 - i)) mod 256
  = Z.of_N (Byte.to_N (nth i bs Byte.x00)).
Proof.
  revert i. induction bs as [|b bs IH] using rev_ind; intros i Hi.
  - cbn in Hi. lia.
  - rewrite length_app in *. cbn [List.length] in *.
    rewrite from_bytes_snoc.
    pose proof (Byte.to_N_bounded b) as Hb.
    assert (Hb' : 0 <= Z.of_N (Byte.to_N b) < 256) by lia.
    destruct (Nat.eq_dec i (List.length bs)) as [->|Hne].
    + rewrite app_nth2, Nat.sub_diag by lia. cbn [nth].
      replace (List.length bs + 1 - 1 - List.length bs)%nat with 0%nat by lia.
      rewrite Z.pow_0_r, Z.div_1_r.
      rewrite Z.add_comm, Z.mod_add by lia. now apply Z.mod_small.
    + rewrite app_nth1 by lia.
      replace (Z.of_nat (List.length bs + 1 - 1 - i))
        with (Z.succ (Z.of_nat (List.length bs - 1 - i))) by lia.
      rewrite Z.pow_succ_r by lia.
      rewrite <- Z.div_div by (try apply Z.pow_pos_nonneg; lia).
      rewrite Z.add_comm, Z.div_add by lia.
      rewrite (Z.div_small (Z.of_N (Byte.to_N b))) by lia.
      cbn [Z.add]. apply IH. lia.
Qed.

Lemma uuid_int_keeps_bit (urandom : list Byte.byte) (n : Z) :
  0 <= n -> ~ In n [62; 63; 76; 77; 78; 79] ->
  Z.testbit (uuid_int urandom) n = Z.testbit (Uuid.from_bytes urandom) n.
Proof.
  intros Hn Hout. unfold uuid_int. set (x := Uuid.from_bytes urandom).
  change (Z.shiftl 49152 48) with (Z.lor (2 ^ 62) (2 ^ 63)).
  change (Z.shiftl 32768 48) with (2 ^ 63).
  change (Z.shiftl 61440 64)
    with (Z.lor (2 ^ 76) (Z.lor (2 ^ 77) (Z.lor (2 ^ 78) (2 ^ 79)))).
  change (Z.shiftl 4 76) with (2 ^ 78).
  repeat (rewrite ?Z.lor_spec, ?Z.land_spec, ?Z.lnot_spec,
            ?testbit_pow2 by lia).
  cbn [In] in Hout.
  destruct (Z.eqb_spec 62 n); [lia|].
  destruct (Z.eqb_spec 63 n); [lia|].
  destruct (Z.eqb_spec 76 n); [lia|].
  destruct (Z.eqb_spec 77 n); [lia|].
  destruct (Z.eqb_spec 78 n); [lia|].
  destruct (Z.eqb_spec 79 n); [lia|].
  cbn. now rewrite !andb_true_r, !orb_false_r.
Qed.

Lemma job_uuid_job_id_of (urandom : list Byte.byte) :
  List.length urandom = 16%nat ->
  job_uuid (job_id_of urandom) = Some (uuid_int urandom).
Proof.
  intros Hlen. pose proof (uuid_int_bound urandom Hlen) as Hu.
  unfold job_uuid, job_id_of.
  rewrite (substring_prefix "distributed_rl_"), String.eqb_refl.
  pose proof (substring_behind "distributed_rl_"
                (Uuid.str (uuid_int urandom))) as Hsub.
  rewrite length_uuid_str in Hsub. cbn [String.length] in Hsub.
  rewrite Hsub, without_hyphens_uuid_str by exact Hu.
  apply hex_value_hex32. lia.
Qed.

(** C9: the job identifier of every launched job is the string
    [distributed_rl_] followed by the text of a freshly generated
    version-4 UUID.  The UUID is a 128-bit integer made of the sixteen
    bytes [os.urandom] gave (every one of them in place, the first
    highest) with only the version bits set to 4 and the variant bits to
    RFC 4122, and it can be read back whole from the identifier.  The
    job is created under that identifier, the trainer's task and the
    [batch_pool_size - 1] agents' tasks are added to it, and the command
    line of every one of them carries it as [experiment_name]. *)
Theorem job_id_is_prefixed_uuid4_everywhere
  (cfg : NOTEBOOK_CONFIG) (hp : hyperparameters) (urandom : list Byte.byte) :
  List.length urandom = 16%nat ->
  exists u job_id ts,
    Uuid.uuid4 urandom = Ok u /\
    0 <= u < 2 ^ 128 /\
    Z.land (Z.shiftr u 76) 15 = 4 /\
    Z.land (Z.shiftr u 62) 3 = 2 /\
    (forall n, 0 <= n -> ~ In n [62; 63; 76; 77; 78; 79] ->
               Z.testbit u n = Z.testbit (Uuid.from_bytes urandom) n) /\
    (forall i, (i < 16)%nat ->
               (Uuid.from_bytes urandom / 256 ^ Z.of_nat (15 - i)) mod 256
               = Z.of_N (Byte.to_N (nth i urandom Byte.x00))) /\
    job_id = "distributed_rl_" ++ Uuid.str u /\
    make_job_id urandom = Ok job_id /\
    job_uuid job_id = Some u /\
    launch cfg hp urandom []
    = (Ok job_id,
       [job_add {| job_param_id := job_id;
                   pool_info := {| pool_id := batch_pool_name cfg |} |};
        task_add_collection job_id ts]) /\
    List.length ts = S (Z.to_nat (batch_pool_size cfg - 1)) /\
    ts <> [] /\
    forallb (fun t => CommandLine.carries (command_line t)
                        "experiment_name" job_id) ts = true.
Proof.
  intros Hlen.
  exists (uuid_int urandom), (job_id_of urandom),
    (tasks cfg hp (job_id_of urandom)).
  split; [apply (make_job_id_eq urandom Hlen)|].
  split; [now apply uuid_int_bound|].
  split; [apply uuid_int_version|].
  split; [apply uuid_int_variant|].
  split; [intros n; apply uuid_int_keeps_bit|].
  split.
  { intros i Hi. pose proof (from_bytes_byte urandom i) as H.
    rewrite Hlen in H. apply H. exact Hi. }
  split; [reflexivity|].
  split; [apply (make_job_id_eq urandom Hlen)|].
  split; [now apply job_uuid_job_id_of|].
  split; [apply (launch_run cfg hp urandom Hlen)|].
  split.
  { unfold tasks. cbn [List.length]. now rewrite length_agents. }
  split; [discriminate|].
  apply forallb_forall. intros t Ht. apply carries_In.
  apply in_tasks in Ht as [->|[i [_ ->]]].
  - cbn [command_line trainer]. rewrite args_trainer_line.
    rewrite (args_key_no_space "experiment_name")
      by auto using no_space_job_id_of.
    rewrite !in_app_iff. cbn [In]. tauto.
  - cbn [command_line agent]. rewrite args_agent_line.
    rewrite (args_key_no_space "experiment_name")
      by auto using no_space_job_id_of.
    rewrite !in_app_iff. cbn [In]. tauto.
Qed.

Lemma job_id_is_prefixed_uuid4_everywhere_witness :
  exists u job_id ts,
    Uuid.uuid4 Sample.urandom = Ok u /\
    Z.land (Z.shiftr u 76) 15 = 4 /\
    Z.land (Z.shiftr u 62) 3 = 2 /\
    job_id = "distributed_rl_" ++ Uuid.str u /\
    job_uuid job_id = Some u /\
    launch (Sample.cfg 3) notebook_hyperparameters Sample.urandom []
    = (Ok job_id,
       [job_add {| job_param_id := job_id;
                   pool_info := {| pool_id := "pool" |} |};
        task_add_collection job_id ts]) /\
    List.length ts = 3%nat /\
    forallb (fun t => CommandLine.carries (command_line t)
                        "experiment_name" job_id) ts = true.
Proof.
  destruct (job_id_is_prefixed_uuid4_everywhere
              (Sample.cfg 3) notebook_hyperparameters Sample.urandom eq_refl)
    as (u & job_id & ts & Hu & _ & Hver & Hvar & _ & _ & Hid & _ & Hback
        & Hrun & Hlen & _ & Hexp).
  exists u, job_id, ts. repeat (split; [assumption|]). assumption.
Defined.

End JobIdentifierClaim.
